(** * Coupon management service: the evaluation engine of [logic.py] and
    the request handlers of [main.py], embedded and verified.

    Numbers are the interpreter's own: [float] is IEEE binary64 (the
    executable specification [SpecFloat] at precision 53), [int] is
    unbounded ([Z]).  Text is a sequence of Unicode code points.  The two
    module-level dictionaries of [storage.py] form the store that the
    handlers thread through. *)

From Stdlib Require Import ZArith NArith List Bool Lia String Ascii.
From Stdlib Require Import Floats.SpecFloat.
From stdpp Require Import gmap.
Import ListNotations.

Local Open Scope Z_scope.

(** ** The interpreter's values *)

Module Py.

(** *** float *)

Definition float : Type := spec_float.

Definition prec : Z := 53.
Definition emax : Z := 1024.

Definition fzero : float := S754_zero false.
Definition fnan : float := S754_nan.

Definition fmul : float -> float -> float := SFmul prec emax.
Definition fdiv : float -> float -> float := SFdiv prec emax.
Definition fadd : float -> float -> float := SFadd prec emax.
Definition fneg : float -> float := SFopp.

(** [a < b], [a <= b], [a == b], [a != b], [a > b]; every one of them but
    [!=] is false as soon as an operand is NaN. *)
Definition flt (a b : float) : bool := SFltb a b.
Definition fle (a b : float) : bool := SFleb a b.
Definition feq (a b : float) : bool := SFeqb a b.
Definition fne (a b : float) : bool := negb (SFeqb a b).
Definition fgt (a b : float) : bool :=
  match SFcompare a b with Some Gt => true | _ => false end.

Definition is_nan (a : float) : bool :=
  match a with S754_nan => true | _ => false end.

(** The float nearest to an integer (ties to even), as written in a
    literal such as [100.0]. *)
Definition float_of_Z (n : Z) : float := binary_normalize prec emax n 0 false.

(** The two-argument builtins [min(a, b)] and [max(a, b)]: the first
    argument is kept unless the second compares strictly below (above)
    it. *)
Definition min (a b : float) : float := if flt b a then b else a.
Definition max (a b : float) : float := if fgt b a then b else a.

(** *** Exceptions *)

Inductive exn : Type :=
| OverflowError
| HTTPException (status_code : Z) (detail : string).

Inductive result (A : Type) : Type :=
| Return (a : A)
| Raise (e : exn).
Arguments Return {A} a.
Arguments Raise {A} e.

Definition bind {A B : Type} (m : result A) (k : A -> result B) : result B :=
  match m with
  | Return a => k a
  | Raise e => Raise e
  end.

(** [float * int]: the integer operand is converted first, and an
    integer beyond the range of a float raises [OverflowError]. *)
Definition float_of_int (n : Z) : result float :=
  match float_of_Z n with
  | S754_infinity _ => Raise OverflowError
  | f => Return f
  end.

Definition fmul_int (a : float) (n : Z) : result float :=
  bind (float_of_int n) (fun b => Return (fmul a b)).

(** *** str *)

Definition str : Type := list N.

Definition lit (s : string) : str := map N_of_ascii (list_ascii_of_string s).

Definition str_eqb (a b : str) : bool := bool_decide (a = b).

(** [a < b] on text: the first differing code point decides, a proper
    prefix comes first. *)
Fixpoint str_ltb (a b : str) : bool :=
  match a, b with
  | [], [] => false
  | [], _ :: _ => true
  | _ :: _, [] => false
  | x :: a', y :: b' =>
      if (x <? y)%N then true
      else if (y <? x)%N then false
      else str_ltb a' b'
  end.

(** [x in xs] for a list of text. *)
Definition str_in (x : str) (xs : list str) : bool := existsb (str_eqb x) xs.

(** [s.upper()] maps every code point to its full upper-case mapping of
    the Unicode character database (version 14).  Written out here: the Basic Latin
    block, and the ten code points beyond it whose mapping consists of
    Basic Latin letters.  The mapping of every other code point contains
    a code point beyond Basic Latin and is not part of this file; such a
    code point is kept as it is, so that comparing an upper-cased text
    with a Basic Latin literal is decided as the interpreter decides
    it.  That is the one use made of [upper]: the discount type, which
    is only ever compared with "FLAT" and "PERCENT".  The upper-casing
    of coupon codes, where the whole mapping counts, is a parameter of
    [create_coupon]. *)
Definition upper_char (c : N) : list N :=
  (if (97 <=? c) && (c <=? 122) then [c - 32]
   else if c =? 223 then [83; 83]              (* U+00DF -> SS *)
   else if c =? 305 then [73]                  (* U+0131 -> I *)
   else if c =? 383 then [83]                  (* U+017F -> S *)
   else if c =? 64256 then [70; 70]            (* U+FB00 -> FF *)
   else if c =? 64257 then [70; 73]            (* U+FB01 -> FI *)
   else if c =? 64258 then [70; 76]            (* U+FB02 -> FL *)
   else if c =? 64259 then [70; 70; 73]        (* U+FB03 -> FFI *)
   else if c =? 64260 then [70; 70; 76]        (* U+FB04 -> FFL *)
   else if c =? 64261 then [83; 84]            (* U+FB05 -> ST *)
   else if c =? 64262 then [83; 84]            (* U+FB06 -> ST *)
   else [c])%N.

Definition upper (s : str) : str := flat_map upper_char s.

(** Upper-casing restricted to the letters a-z, every other code point
    kept: the case fold that the design documents describe. *)
Definition ascii_upper_char (c : N) : N :=
  (if (97 <=? c) && (c <=? 122) then c - 32 else c)%N.

Definition ascii_upper (s : str) : str := map ascii_upper_char s.

(** *** datetime.date *)

Record date : Type := mkdate { year : Z; month : Z; day : Z }.

Definition date_eqb (a b : date) : bool :=
  (year a =? year b) && (month a =? month b) && (day a =? day b).

Definition date_ltb (a b : date) : bool :=
  (year a <? year b)
  || ((year a =? year b)
      && ((month a <? month b)
          || ((month a =? month b) && (day a <? day b)))).

Definition date_leb (a b : date) : bool := date_ltb a b || date_eqb a b.

(** *** list.sort(key=...) with a three-component tuple key

    Tuples compare by their first differing component.  The sort is
    stable; it is written as an insertion sort, which returns what every
    stable sort returns whenever the keys are totally preordered, that is
    whenever no key holds a NaN. *)
Definition key : Type := float * date * str.

Definition key_ltb (a b : key) : bool :=
  let '(d1, e1, c1) := a in
  let '(d2, e2, c2) := b in
  if fne d1 d2 then flt d1 d2
  else if negb (date_eqb e1 e2) then date_ltb e1 e2
  else if negb (str_eqb c1 c2) then str_ltb c1 c2
  else false.

Section Sort.
Context {A : Type} (keyfn : A -> key).

Fixpoint insert (x : A) (l : list A) : list A :=
  match l with
  | [] => [x]
  | y :: l' =>
      if key_ltb (keyfn y) (keyfn x) then y :: insert x l' else x :: y :: l'
  end.

Definition sort (l : list A) : list A := fold_right insert [] l.
End Sort.

End Py.

(** ** models.py *)

Module Models.
Import Py.

Record Eligibility : Type := {
  (* user based *)
  allowedUserTiers : option (list str);
  minLifetimeSpend : option float;
  minOrdersPlaced : option Z;
  firstOrderOnly : option bool;
  allowedCountries : option (list str);
  (* cart based *)
  minCartValue : option float;
  applicableCategories : option (list str);
  excludedCategories : option (list str);
  minItemsCount : option Z
}.

Record Coupon : Type := {
  code : str;
  description : str;
  discountType : str;
  discountValue : float;
  maxDiscountAmount : option float;
  startDate : date;
  endDate : date;
  usageLimitPerUser : option Z;
  eligibility : Eligibility
}.

Record UserContext : Type := {
  userId : str;
  userTier : str;
  country : str;
  lifetimeSpend : float;
  ordersPlaced : Z
}.

Record CartItem : Type := {
  productId : str;
  category : str;
  unitPrice : float;
  quantity : Z
}.

Record Cart : Type := { items : list CartItem }.

Record BestCouponRequest : Type := { user : UserContext; cart : Cart }.

Record BestCouponResponse : Type := {
  coupon : option Coupon;
  discountAmount : float
}.

(** [coupon.code = c] on a model instance. *)
Definition set_code (c : str) (k : Coupon) : Coupon :=
  {| code := c;
     description := description k;
     discountType := discountType k;
     discountValue := discountValue k;
     maxDiscountAmount := maxDiscountAmount k;
     startDate := startDate k;
     endDate := endDate k;
     usageLimitPerUser := usageLimitPerUser k;
     eligibility := eligibility k |}.

(** Truth value of an optional list: [None] and the empty list are
    false. *)
Definition truthy {A : Type} (o : option (list A)) : bool :=
  match o with
  | Some (_ :: _) => true
  | _ => false
  end.

Definition elements {A : Type} (o : option (list A)) : list A :=
  match o with
  | Some l => l
  | None => []
  end.

End Models.

(** ** storage.py and the computations over it *)

Module Storage.
Import Py Models.

(** A [dict] keeps its keys in insertion order; assigning to a key that
    is present replaces the value where it stands. *)
Definition dict (V : Type) : Type := list (str * V).

Fixpoint dict_get {V : Type} (k : str) (d : dict V) : option V :=
  match d with
  | [] => None
  | (k', v) :: d' => if str_eqb k k' then Some v else dict_get k d'
  end.

Definition dict_contains {V : Type} (k : str) (d : dict V) : bool :=
  match dict_get k d with Some _ => true | None => false end.

Fixpoint dict_set {V : Type} (k : str) (v : V) (d : dict V) : dict V :=
  match d with
  | [] => [(k, v)]
  | (k', v') :: d' =>
      if str_eqb k k' then (k', v) :: d' else (k', v') :: dict_set k v d'
  end.

Definition dict_values {V : Type} (d : dict V) : list V := map snd d.

Record store : Type := {
  COUPONS_DB : dict Coupon;                 (* code -> Coupon *)
  USAGE_PER_USER : gmap (str * str) Z       (* (userId, couponCode) -> usageCount *)
}.

(** Computations that read or write the two dictionaries and may raise:
    the store as it stands when the computation ends comes back with the
    outcome, also when the outcome is an exception. *)
Definition M (A : Type) : Type := store -> result A * store.

Definition ret {A : Type} (a : A) : M A := fun s => (Return a, s).

Definition raise {A : Type} (e : exn) : M A := fun s => (Raise e, s).

Definition mbind {A B : Type} (m : M A) (k : A -> M B) : M B :=
  fun s =>
    match m s with
    | (Return a, s') => k a s'
    | (Raise e, s') => (Raise e, s')
    end.

Definition lift {A : Type} (r : result A) : M A := fun s => (r, s).

Definition read {A : Type} (f : store -> A) : M A := fun s => (Return (f s), s).

Definition write (f : store -> store) : M unit := fun s => (Return tt, f s).

End Storage.

Declare Scope py_scope.
Delimit Scope py_scope with py.
Notation "x <- m ;; k" := (Py.bind m (fun x => k))
(at level 100, m at next level, right associativity) : py_scope.
Notation "x <~ m ;; k" := (Storage.mbind m (fun x => k))
(at level 100, m at next level, right associativity) : py_scope.
Notation "m ;;; k" := (Storage.mbind m (fun _ => k))
(at level 100, right associativity) : py_scope.

Local Open Scope py_scope.

(** ** logic.py *)

Module Logic.
Import Py Models Storage.

(** The builtin [sum] starts from the integer 0 and adds from the left;
    the sum of no item, the integer 0, is written as the float that equals
    it.  (From CPython 3.12 on, [sum] carries a compensation term when
    it adds floats; the rounding of the sum plays no part below.) *)
Definition compute_cart_value (cart : Cart) : result float :=
  fold_left
    (fun acc item =>
       total <- acc ;;
       price <- fmul_int (unitPrice item) (quantity item) ;;
       Return (fadd total price))
    (items cart) (Return fzero).

Definition compute_items_count (cart : Cart) : Z :=
  fold_left (fun total item => total + quantity item) (items cart) 0.

Definition get_cart_categories (cart : Cart) : list str :=
  remove_dups (map category (items cart)).

(** [clock] is what [date.today()] answers when the call is made. *)
Definition is_within_date_range (clock : date) (coupon : Coupon)
    (today : option date) : bool :=
  let today := match today with Some d => d | None => clock end in
  date_leb (startDate coupon) today && date_leb today (endDate coupon).

Definition has_remaining_usage (coupon : Coupon) (user : UserContext) : M bool :=
  match usageLimitPerUser coupon with
  | None => ret true
  | Some limit =>
      let key := (userId user, code coupon) in
      used <~ read (fun s => default 0 (USAGE_PER_USER s !! key)) ;;
      ret (used <? limit)
  end.

Definition user_eligibility_ok (elig : Eligibility) (user : UserContext)
    (is_first_order : bool) : bool :=
  if truthy (allowedUserTiers elig)
     && negb (str_in (userTier user) (elements (allowedUserTiers elig)))
  then false
  else if match minLifetimeSpend elig with
          | Some m => flt (lifetimeSpend user) m
          | None => false
          end
  then false
  else if match minOrdersPlaced elig with
          | Some m => ordersPlaced user <? m
          | None => false
          end
  then false
  else if match firstOrderOnly elig with Some true => true | _ => false end
          && negb is_first_order
  then false
  else if truthy (allowedCountries elig)
          && negb (str_in (country user) (elements (allowedCountries elig)))
  then false
  else true.

Definition cart_eligibility_ok (elig : Eligibility) (cart : Cart) : result bool :=
  cart_value <- compute_cart_value cart ;;
  if match minCartValue elig with
     | Some m => flt cart_value m
     | None => false
     end
  then Return false
  else
    let items_count := compute_items_count cart in
    if match minItemsCount elig with
       | Some m => items_count <? m
       | None => false
       end
    then Return false
    else
      let categories := get_cart_categories cart in
      if truthy (applicableCategories elig)
         && negb (existsb
                    (fun c => str_in c (elements (applicableCategories elig)))
                    categories)
      then Return false
      else if truthy (excludedCategories elig)
              && existsb
                   (fun c => str_in c (elements (excludedCategories elig)))
                   categories
      then Return false
      else Return true.

Definition compute_discount (coupon : Coupon) (cart_value : float) : float :=
  let discount :=
    if str_eqb (upper (discountType coupon)) (lit "FLAT") then
      discountValue coupon
    else if str_eqb (upper (discountType coupon)) (lit "PERCENT") then
      let discount := fmul cart_value (fdiv (discountValue coupon) (float_of_Z 100)) in
      match maxDiscountAmount coupon with
      | Some cap => Py.min discount cap
      | None => discount
      end
    else fzero in
  (* discount cannot exceed cart value *)
  Py.max fzero (Py.min discount cart_value).

(** The key of the sort: highest discount first, then earliest endDate,
    then lexicographically smaller code. *)
Definition sort_key (cd : Coupon * float) : key :=
  (fneg (snd cd), endDate (fst cd), code (fst cd)).

Definition pick_best_coupon (coupons : list (Coupon * float))
    : option (Coupon * float) :=
  match coupons with
  | [] => None
  | _ :: _ => head (sort sort_key coupons)
  end.

Definition increment_usage (coupon : Coupon) (user : UserContext) : M unit :=
  let key := (userId user, code coupon) in
  used <~ read (fun s => default 0 (USAGE_PER_USER s !! key)) ;;
  write (fun s =>
           {| COUPONS_DB := COUPONS_DB s;
              USAGE_PER_USER := <[key := used + 1]> (USAGE_PER_USER s) |}).

End Logic.

(** ** main.py

    The module repeats the models, the two dictionaries and the functions
    of [logic.py] word for word; only [compute_discount] is written
    differently (the upper-cased type is bound once).  The handlers are
    embedded over the functions of [Logic] and this [compute_discount]. *)

Module Main.
Import Py Models Storage.

Definition compute_discount (coupon : Coupon) (cart_value : float) : float :=
  let dtype := upper (discountType coupon) in
  let discount :=
    if str_eqb dtype (lit "FLAT") then
      discountValue coupon
    else if str_eqb dtype (lit "PERCENT") then
      let discount := fmul cart_value (fdiv (discountValue coupon) (float_of_Z 100)) in
      match maxDiscountAmount coupon with
      | Some cap => Py.min discount cap
      | None => discount
      end
    else fzero in
  (* discount cannot exceed cart value and cannot be negative *)
  Py.max fzero (Py.min discount cart_value).

(** [coupon.code.upper()] needs the case mapping of the whole Unicode
    character database, which is no part of the repository: [str_upper]
    stands for [str.upper], and what is proved of [create_coupon] is
    proved for every function in its place. *)
Definition create_coupon (str_upper : str -> str) (coupon : Coupon) : M Coupon :=
  let code_upper := str_upper (code coupon) in
  present <~ read (fun s => dict_contains code_upper (COUPONS_DB s)) ;;
  if present then
    (* You can also choose to overwrite; here we reject. *)
    raise (HTTPException 400 "Coupon code already exists")
  else
    let coupon := set_code code_upper coupon in
    write (fun s =>
             {| COUPONS_DB := dict_set code_upper coupon (COUPONS_DB s);
                USAGE_PER_USER := USAGE_PER_USER s |}) ;;;
    ret coupon.

Definition list_coupons : M (list Coupon) :=
  read (fun s => dict_values (COUPONS_DB s)).

(** The body of the loop of [get_best_coupon] over the coupons of the
    catalog; [continue] is the rest of the iteration. *)
Fixpoint candidates_loop (today : date) (user : UserContext) (cart : Cart)
    (cart_value : float) (is_first_order : bool) (coupons : list Coupon)
    (candidate_discounts : list (Coupon * float)) : M (list (Coupon * float)) :=
  match coupons with
  | [] => ret candidate_discounts
  | coupon :: rest =>
      let continue :=
        candidates_loop today user cart cart_value is_first_order rest in
      (* 1. date validity *)
      if negb (Logic.is_within_date_range today coupon (Some today)) then
        continue candidate_discounts
      else
        (* 2. usage limit per user *)
        remaining <~ Logic.has_remaining_usage coupon user ;;
        if negb remaining then continue candidate_discounts
        else
          (* 3. eligibility checks *)
          let elig := eligibility coupon in
          if negb (Logic.user_eligibility_ok elig user is_first_order) then
            continue candidate_discounts
          else
            cart_ok <~ lift (Logic.cart_eligibility_ok elig cart) ;;
            if negb cart_ok then continue candidate_discounts
            else
              (* 4. compute discount *)
              let discount := compute_discount coupon cart_value in
              if fgt discount fzero then
                continue (candidate_discounts ++ [(coupon, discount)])
              else continue candidate_discounts
  end.

(** [get_best_coupon] up to the end of its loop: the candidate list.
    [today] is what [date.today()] answers during the request. *)
Definition candidate_discounts (today : date) (payload : BestCouponRequest)
    : M (list (Coupon * float)) :=
  let user := user payload in
  let cart := cart payload in
  cart_value <~ lift (Logic.compute_cart_value cart) ;;
  (* For this assignment, we treat "first order" as ordersPlaced == 0 *)
  let is_first_order := ordersPlaced user =? 0 in
  coupons <~ read (fun s => dict_values (COUPONS_DB s)) ;;
  candidates_loop today user cart cart_value is_first_order coupons [].

(** [get_best_coupon] up to the selection, before any usage is consumed. *)
Definition best (today : date) (payload : BestCouponRequest)
    : M (option (Coupon * float)) :=
  candidates <~ candidate_discounts today payload ;;
  ret (Logic.pick_best_coupon candidates).

Definition get_best_coupon (today : date) (payload : BestCouponRequest)
    : M BestCouponResponse :=
  best <~ best today payload ;;
  match best with
  | None => ret {| coupon := None; discountAmount := fzero |}
  | Some (best_coupon, best_discount) =>
      (* Optionally "consume" usage here *)
      Logic.increment_usage best_coupon (user payload) ;;;
      ret {| coupon := Some best_coupon; discountAmount := best_discount |}
  end.

End Main.

(** ** The design document's words

    The discount: the type is upper-cased by [up]; FLAT takes the value and
    never looks at the cap; PERCENT takes the share of the cart and the
    smaller of it and the cap; anything else takes zero; the result is
    clamped to the cart. *)

Module Reference.
Import Py Models.

Definition clamp (x lo hi : float) : float := Py.max lo (Py.min x hi).

Definition raw_discount (up : str -> str) (coupon : Coupon) (cartValue : float)
    : float :=
  let t := up (discountType coupon) in
  if str_eqb t (lit "FLAT") then discountValue coupon
  else if str_eqb t (lit "PERCENT") then
    let raw := fmul cartValue (fdiv (discountValue coupon) (float_of_Z 100)) in
    match maxDiscountAmount coupon with
    | Some cap => Py.min raw cap
    | None => raw
    end
  else fzero.

Definition discount (up : str -> str) (coupon : Coupon) (cartValue : float)
    : float :=
  clamp (raw_discount up coupon cartValue) fzero cartValue.

(** What it is for a cart to violate the cart-side rules; [present o l]
    says that the optional set [o] is present with members [l]. *)
Definition cart_violation (present : option (list str) -> list str -> Prop)
    (rules : Eligibility) (cartValue : float) (cart : Cart) : Prop :=
  (exists m, minCartValue rules = Some m /\ flt cartValue m = true)
  \/ (exists m, minItemsCount rules = Some m
                /\ Logic.compute_items_count cart < m)
  \/ (exists l, present (applicableCategories rules) l
                /\ forall x, In x (map category (items cart)) -> ~ In x l)
  \/ (exists l, present (excludedCategories rules) l
                /\ exists x, In x (map category (items cart)) /\ In x l).

(** Present, the empty set included. *)
Definition given (o : option (list str)) (l : list str) : Prop := o = Some l.

(** Present with at least one member. *)
Definition given_nonempty (o : option (list str)) (l : list str) : Prop :=
  o = Some l /\ l <> [].

(** The order of the selection: higher discount, then earlier endDate,
    then smaller code.  [b] comes strictly before [x]; [b] comes before
    [x] or level with it. *)
Definition strictly_before (b x : Coupon * float) : Prop :=
  flt (snd x) (snd b) = true
  \/ (feq (snd x) (snd b) = true
      /\ (date_ltb (endDate (fst b)) (endDate (fst x)) = true
          \/ (endDate (fst b) = endDate (fst x)
              /\ str_ltb (code (fst b)) (code (fst x)) = true))).

Definition before_or_level (b x : Coupon * float) : Prop :=
  strictly_before b x
  \/ (feq (snd x) (snd b) = true
      /\ endDate (fst b) = endDate (fst x)
      /\ code (fst b) = code (fst x)).

End Reference.

(** ** Orders: the vocabulary of the proofs about comparisons and sorting *)

Module Order.
Import Py.

(** Three-way comparisons of the components of a sort key.  On floats it
    is meaningful away from NaN only. *)
Definition fcmp (a b : float) : comparison :=
  match SFcompare a b with
  | Some c => c
  | None => Eq
  end.

Definition date_cmp (a b : date) : comparison :=
  match year a ?= year b with
  | Eq => match month a ?= month b with
          | Eq => day a ?= day b
          | c => c
          end
  | c => c
  end.

Fixpoint str_cmp (a b : str) : comparison :=
  match a, b with
  | [], [] => Eq
  | [], _ :: _ => Lt
  | _ :: _, [] => Gt
  | x :: a', y :: b' =>
      match (x ?= y)%N with
      | Eq => str_cmp a' b'
      | c => c
      end
  end.

Definition lex (c1 c2 : comparison) : comparison :=
  match c1 with
  | Eq => c2
  | _ => c1
  end.

Definition key_cmp (a b : key) : comparison :=
  let '(d1, e1, c1) := a in
  let '(d2, e2, c2) := b in
  lex (fcmp d1 d2) (lex (date_cmp e1 e2) (str_cmp c1 c2)).

Definition key_ok (a : key) : Prop := is_nan (fst (fst a)) = false.

(** A comparison that behaves as a total preorder on the values
    satisfying [ok]. *)
Record total_preorder {A : Type} (ok : A -> Prop) (cmp : A -> A -> comparison)
    : Prop := {
  cmp_opp : forall a b, ok a -> ok b -> cmp b a = CompOpp (cmp a b);
  cmp_trans : forall a b c, ok a -> ok b -> ok c ->
      cmp a b <> Gt -> cmp b c <> Gt -> cmp a c <> Gt
}.

(** The position of a number on the line, as three integers compared
    from left to right. *)
Definition rank (a : float) : Z * Z * Z :=
  match a with
  | S754_infinity true => (-2, 0, 0)
  | S754_finite true m e => (-1, - e, Zneg m)
  | S754_zero _ | S754_nan => (0, 0, 0)
  | S754_finite false m e => (1, e, Zpos m)
  | S754_infinity false => (2, 0, 0)
  end.

Definition rank_le (p q : Z * Z * Z) : Prop :=
  let '(p1, p2, p3) := p in
  let '(q1, q2, q3) := q in
  p1 < q1 \/ (p1 = q1 /\ (p2 < q2 \/ (p2 = q2 /\ p3 <= q3))).

End Order.

(** ** The loop of [get_best_coupon], read as a filter *)

Module Filter.
Import Py Models Storage.

(** What it takes for a coupon to pass the four checks of the loop. *)
Definition passes (today : date) (user : UserContext) (cart : Cart)
    (is_first_order : bool) (s : store) (c : Coupon) : Prop :=
  Logic.is_within_date_range today c (Some today) = true
  /\ fst (Logic.has_remaining_usage c user s) = Return true
  /\ Logic.user_eligibility_ok (eligibility c) user is_first_order = true
  /\ Logic.cart_eligibility_ok (eligibility c) cart = Return true.

Definition candidate_of (today : date) (user : UserContext) (cart : Cart)
    (cart_value : float) (is_first_order : bool) (s : store)
    (coupons : list Coupon) (cd : Coupon * float) : Prop :=
  In (fst cd) coupons
  /\ passes today user cart is_first_order s (fst cd)
  /\ snd cd = Main.compute_discount (fst cd) cart_value
  /\ fgt (snd cd) fzero = true.

(** The four conditions of [cart_eligibility_ok], as one boolean. *)
Definition cart_rule_broken (elig : Eligibility) (v : float) (cart : Cart) : bool :=
  match minCartValue elig with Some m => flt v m | None => false end
  || match minItemsCount elig with
     | Some m => Logic.compute_items_count cart <? m
     | None => false
     end
  || (truthy (applicableCategories elig)
      && negb (existsb (fun c => str_in c (elements (applicableCategories elig)))
                 (Logic.get_cart_categories cart)))
  || (truthy (excludedCategories elig)
      && existsb (fun c => str_in c (elements (excludedCategories elig)))
           (Logic.get_cart_categories cart)).

End Filter.

(** ** Sample data *)

Module Examples.
Import Py Models Storage.

Definition no_rules : Eligibility :=
  {| allowedUserTiers := None; minLifetimeSpend := None;
     minOrdersPlaced := None; firstOrderOnly := None;
     allowedCountries := None; minCartValue := None;
     applicableCategories := None; excludedCategories := None;
     minItemsCount := None |}.

Definition with_applicable (l : list str) : Eligibility :=
  {| allowedUserTiers := None; minLifetimeSpend := None;
     minOrdersPlaced := None; firstOrderOnly := None;
     allowedCountries := None; minCartValue := None;
     applicableCategories := Some l; excludedCategories := None;
     minItemsCount := None |}.

Definition jan1 : date := mkdate 2025 1 1.
Definition feb1 : date := mkdate 2025 2 1.
Definition jun15 : date := mkdate 2025 6 15.
Definition dec31 : date := mkdate 2025 12 31.

Definition make_coupon (c : str) (t : str) (value : Z) (from to : date)
    (limit : option Z) : Coupon :=
  {| code := c; description := []; discountType := t;
     discountValue := float_of_Z value; maxDiscountAmount := None;
     startDate := from; endDate := to; usageLimitPerUser := limit;
     eligibility := no_rules |}.

Definition save10 : Coupon :=
  make_coupon (lit "SAVE10") (lit "flat") 10 jan1 dec31 (Some 1).

(** A discountType spelt with the ligature U+FB02 followed by "at". *)
Definition ligature_flat : Coupon :=
  make_coupon (lit "LIG10") [64258; 97; 116]%N 10 jan1 dec31 None.

Definition bogo : Coupon :=
  make_coupon (lit "BOGO1") (lit "BOGO") 10 jan1 dec31 None.

Definition inverted : Coupon :=
  make_coupon (lit "BACK") (lit "FLAT") 10 dec31 jan1 None.

Definition b10 : Coupon := make_coupon (lit "B10") (lit "FLAT") 15 jan1 jan1 None.
Definition a10 : Coupon := make_coupon (lit "A10") (lit "FLAT") 15 jan1 feb1 None.

Definition shopper : UserContext :=
  {| userId := lit "u1"; userTier := lit "GOLD"; country := lit "IN";
     lifetimeSpend := float_of_Z 500; ordersPlaced := 3 |}.

Definition grocery (n : Z) : CartItem :=
  {| productId := lit "p1"; category := lit "grocery";
     unitPrice := float_of_Z 50; quantity := n |}.

Definition grocery_cart : Cart := {| items := [grocery 2] |}.

(** A quantity too large for a float. *)
Definition huge_cart : Cart := {| items := [grocery (2 ^ 1024)] |}.

Definition request : BestCouponRequest :=
  {| user := shopper; cart := grocery_cart |}.

Definition shop (coupons : list Coupon) (usage : gmap (str * str) Z) : store :=
  {| COUPONS_DB := map (fun c => (code c, c)) coupons;
     USAGE_PER_USER := usage |}.

Definition used_once : gmap (str * str) Z :=
  <[(lit "u1", lit "SAVE10") := 1]> ∅.

End Examples.

(** ** The vocabulary of the statements about whole requests *)

Module Eligible.
Import Py Models Storage.

(** A number that is neither negative nor NaN. *)
Definition nonneg (x : float) : Prop := fle fzero x = true.

(** Zero or a finite number that is not negative: what a price is. *)
Definition finite_nonneg (x : float) : Prop :=
  match x with
  | S754_zero _ | S754_finite false _ _ => True
  | _ => False
  end.

(** A number that carries the sign [sx]. *)
Definition signed (sx : bool) (f : float) : Prop :=
  match f with
  | S754_zero s | S754_infinity s | S754_finite s _ _ => s = sx
  | S754_nan => False
  end.

Definition is_true (r : result bool) : bool :=
  match r with
  | Return true => true
  | _ => false
  end.

(** The recorded usage count of a user for a coupon code, 0 when there is
    none. *)
Definition usage_count (s : store) (uid c : str) : Z :=
  default 0 (USAGE_PER_USER s !! (uid, c)).

(** The four checks of the loop of [get_best_coupon] and the test on the
    discount, for one coupon. *)
Definition eligible (today : date) (user : UserContext) (cart : Cart)
    (cart_value : float) (s : store) (c : Coupon) : bool :=
  Logic.is_within_date_range today c (Some today)
  && match usageLimitPerUser c with
     | None => true
     | Some limit => usage_count s (userId user) (code c) <? limit
     end
  && Logic.user_eligibility_ok (eligibility c) user (ordersPlaced user =? 0)
  && is_true (Logic.cart_eligibility_ok (eligibility c) cart)
  && fgt (Main.compute_discount c cart_value) fzero.

(** Every coupon of the catalog is stored under its own code, and no code
    is stored twice. *)
Definition catalog_ok (d : dict Coupon) : Prop :=
  NoDup (map fst d) /\ Forall (fun kc => code (snd kc) = fst kc) d.

(** A series of create-coupon requests, each one served whether or not
    the one before was rejected; [str_upper] stands for [str.upper]. *)
Fixpoint create_all (str_upper : str -> str) (coupons : list Coupon)
    (s : store) : store :=
  match coupons with
  | [] => s
  | c :: rest => create_all str_upper rest (snd (Main.create_coupon str_upper c s))
  end.

Definition empty_store : store :=
  {| COUPONS_DB := []; USAGE_PER_USER := ∅ |}.

End Eligible.

(** ** More sample data *)

Module MoreExamples.
Import Py Models Storage Examples.

Definition percent50 : Coupon :=
  {| code := lit "HALF"; description := []; discountType := lit "percent";
     discountValue := float_of_Z 50; maxDiscountAmount := Some (float_of_Z 20);
     startDate := jan1; endDate := dec31; usageLimitPerUser := None;
     eligibility := no_rules |}.

Definition gold_in : Eligibility :=
  {| allowedUserTiers := Some [lit "GOLD"]; minLifetimeSpend := Some (float_of_Z 100);
     minOrdersPlaced := Some 1; firstOrderOnly := None;
     allowedCountries := Some [lit "IN"]; minCartValue := None;
     applicableCategories := None; excludedCategories := None;
     minItemsCount := None |}.

Definition empty_cart : Cart := {| items := [] |}.

Definition empty_request : BestCouponRequest :=
  {| user := shopper; cart := empty_cart |}.

Definition five : Coupon :=
  make_coupon (lit "FIVE") (lit "FLAT") 5 jan1 dec31 None.

Definition lower_save10 : Coupon :=
  make_coupon (lit "save10") (lit "flat") 5 jan1 dec31 None.

End MoreExamples.

(** * Floats: comparisons *)

Section FloatFacts.
Import Py Order.

Lemma fcmp_opp (a b : float) :
  is_nan a = false -> is_nan b = false -> fcmp b a = CompOpp (fcmp a b).
Proof.
  intros Ha Hb. unfold fcmp.
  destruct a as [sa|sa| |sa ma ea], b as [sb|sb| |sb mb eb];
    try discriminate; try reflexivity;
    try (destruct sa; reflexivity); try (destruct sb; reflexivity);
    try (destruct sa, sb; reflexivity).
  cbn. destruct sa, sb; try reflexivity.
  - rewrite (Z.compare_antisym ea eb).
    destruct (ea ?= eb) eqn:E; cbn; try reflexivity.
    rewrite (Pos.compare_cont_antisym ma mb Eq). reflexivity.
  - rewrite (Z.compare_antisym ea eb).
    destruct (ea ?= eb) eqn:E; cbn; try reflexivity.
    rewrite (Pos.compare_cont_antisym ma mb Eq). reflexivity.
Qed.


Lemma fcmp_rank (a b : float) :
  is_nan a = false -> is_nan b = false ->
  (fcmp a b <> Gt <-> rank_le (rank a) (rank b)).
Proof.
  intros Ha Hb. unfold fcmp.
  destruct a as [[]|[]| |[] ma ea], b as [[]|[]| |[] mb eb];
    try discriminate; cbn;
    try (rewrite Pos.compare_cont_spec; cbn;
         destruct (Z.compare_spec ea eb); destruct (Pos.compare_spec ma mb);
         cbn);
    (split;
     [ intros K; try lia; exfalso; now apply K
     | intros K; try discriminate; exfalso; lia ]).
Qed.

Lemma fcmp_trans (a b c : float) :
  is_nan a = false -> is_nan b = false -> is_nan c = false ->
  fcmp a b <> Gt -> fcmp b c <> Gt -> fcmp a c <> Gt.
Proof.
  intros Ha Hb Hc. rewrite !fcmp_rank by assumption.
  unfold rank_le.
  destruct (rank a) as [[a1 a2] a3], (rank b) as [[b1 b2] b3],
    (rank c) as [[c1 c2] c3].
  lia.
Qed.

Lemma float_total_preorder :
  total_preorder (fun a => is_nan a = false) fcmp.
Proof. split; [apply fcmp_opp | apply fcmp_trans]. Qed.

End FloatFacts.

(** * Total preorders and their lexicographic product *)

Section Preorders.
Import Py Order.

Lemma compopp_gt (c : comparison) : CompOpp c <> Gt <-> c <> Lt.
Proof. destruct c; cbn; split; congruence. Qed.

Section Derived.
Context {A : Type} {ok : A -> Prop} {cmp : A -> A -> comparison}.
Hypothesis TP : total_preorder ok cmp.

Lemma tp_lt_gt (a b : A) : ok a -> ok b -> cmp a b = Lt -> cmp b a = Gt.
Proof. intros Ha Hb H. rewrite (cmp_opp _ _ TP a b), H; auto. Qed.

Lemma tp_ge (a b : A) : ok a -> ok b -> cmp a b <> Lt -> cmp b a <> Gt.
Proof.
  intros Ha Hb H. rewrite (cmp_opp _ _ TP a b) by assumption.
  now apply compopp_gt.
Qed.

Lemma tp_not_lt (a b : A) : ok a -> ok b -> cmp b a <> Gt -> cmp a b <> Lt.
Proof.
  intros Ha Hb H. rewrite (cmp_opp _ _ TP a b) in H by assumption.
  now apply compopp_gt.
Qed.

Lemma tp_refl (a : A) : ok a -> cmp a a = Eq.
Proof.
  intros Ha. pose proof (cmp_opp _ _ TP a a Ha Ha) as H.
  destruct (cmp a a); cbn in H; congruence.
Qed.

(** Strictly below, then not above: strictly below. *)
Lemma tp_lt_le (a b c : A) :
  ok a -> ok b -> ok c -> cmp a b = Lt -> cmp b c <> Gt -> cmp a c = Lt.
Proof.
  intros Ha Hb Hc Hab Hbc.
  destruct (cmp a c) eqn:E; [exfalso | reflexivity | exfalso].
  - assert (Hca : cmp c a <> Gt) by (apply tp_ge; auto; congruence).
    pose proof (cmp_trans _ _ TP b c a Hb Hc Ha Hbc Hca) as Hba.
    apply Hba. now apply tp_lt_gt.
  - assert (Hca : cmp c a <> Gt) by (apply tp_ge; auto; congruence).
    pose proof (cmp_trans _ _ TP b c a Hb Hc Ha Hbc Hca) as Hba.
    apply Hba. now apply tp_lt_gt.
Qed.

Lemma tp_le_lt (a b c : A) :
  ok a -> ok b -> ok c -> cmp a b <> Gt -> cmp b c = Lt -> cmp a c = Lt.
Proof.
  intros Ha Hb Hc Hab Hbc.
  destruct (cmp a c) eqn:E; [exfalso | reflexivity | exfalso].
  - assert (Hca : cmp c a <> Gt) by (apply tp_ge; auto; congruence).
    pose proof (cmp_trans _ _ TP c a b Hc Ha Hb Hca Hab) as Hcb.
    apply Hcb. now apply tp_lt_gt.
  - assert (Hca : cmp c a <> Gt) by (apply tp_ge; auto; congruence).
    pose proof (cmp_trans _ _ TP c a b Hc Ha Hb Hca Hab) as Hcb.
    apply Hcb. now apply tp_lt_gt.
Qed.

End Derived.

Section Product.
Context {A B : Type} {okA : A -> Prop} {okB : B -> Prop}.
Context {cmpA : A -> A -> comparison} {cmpB : B -> B -> comparison}.
Hypothesis TA : total_preorder okA cmpA.
Hypothesis TB : total_preorder okB cmpB.

Lemma lex_total_preorder :
  total_preorder (fun p => okA (fst p) /\ okB (snd p))
    (fun p q => lex (cmpA (fst p) (fst q)) (cmpB (snd p) (snd q))).
Proof.
  split.
  - intros [a b] [a' b'] [Ha Hb] [Ha' Hb']; cbn in *.
    rewrite (cmp_opp _ _ TA a a'), (cmp_opp _ _ TB b b') by assumption.
    destruct (cmpA a a'); reflexivity.
  - intros [a b] [a' b'] [a'' b''] [Ha Hb] [Ha' Hb'] [Ha'' Hb'']; cbn in *.
    intros H1 H2.
    destruct (cmpA a a') eqn:E1; cbn in H1; [| | congruence];
      destruct (cmpA a' a'') eqn:E2; cbn in H2; try congruence.
    + assert (E : cmpA a a'' = Eq).
      { assert (L : cmpA a a'' <> Gt)
          by (apply (cmp_trans _ _ TA a a' a''); auto; congruence).
        assert (G : cmpA a'' a <> Gt).
        { apply (cmp_trans _ _ TA a'' a' a); auto;
            apply (tp_ge TA); auto; congruence. }
        apply (tp_not_lt TA) in G; auto.
        destruct (cmpA a a''); congruence. }
      rewrite E. cbn. apply (cmp_trans _ _ TB b b' b''); auto.
    + rewrite (tp_le_lt TA a a' a''); auto; cbn; congruence.
    + rewrite (tp_lt_le TA a a' a''); auto; cbn; congruence.
    + rewrite (tp_lt_le TA a a' a''); auto; cbn; congruence.
Qed.

End Product.

(** Dates. *)

Lemma date_cmp_eq (a b : date) : date_cmp a b = Eq <-> a = b.
Proof.
  unfold date_cmp. destruct a as [y m d], b as [y' m' d']; cbn.
  destruct (Z.compare_spec y y'); [| split; [discriminate | intros [= ]; lia] ..].
  destruct (Z.compare_spec m m'); [| split; [discriminate | intros [= ]; lia] ..].
  destruct (Z.compare_spec d d'); [| split; [discriminate | intros [= ]; lia] ..].
  subst. split; reflexivity.
Qed.

Lemma date_total_preorder : total_preorder (fun _ => True) date_cmp.
Proof.
  split.
  - intros a b _ _. unfold date_cmp.
    rewrite (Z.compare_antisym (year a)), (Z.compare_antisym (month a)),
      (Z.compare_antisym (day a)).
    destruct (year a ?= year b); cbn; try reflexivity.
    destruct (month a ?= month b); reflexivity.
  - intros a b c _ _ _. unfold date_cmp.
    destruct (Z.compare_spec (year a) (year b));
      destruct (Z.compare_spec (year b) (year c));
      destruct (Z.compare_spec (year a) (year c)); try lia; try congruence;
      destruct (Z.compare_spec (month a) (month b));
      destruct (Z.compare_spec (month b) (month c));
      destruct (Z.compare_spec (month a) (month c)); try lia; try congruence;
      destruct (Z.compare_spec (day a) (day b));
      destruct (Z.compare_spec (day b) (day c));
      destruct (Z.compare_spec (day a) (day c)); try lia; congruence.
Qed.

Lemma date_ltb_cmp (a b : date) : date_ltb a b = true <-> date_cmp a b = Lt.
Proof.
  unfold date_ltb, date_cmp.
  destruct (Z.compare_spec (year a) (year b));
    destruct (Z.compare_spec (month a) (month b));
    destruct (Z.compare_spec (day a) (day b));
    rewrite ?orb_true_iff, ?andb_true_iff, ?Z.ltb_lt, ?Z.eqb_eq;
    split; intros; try reflexivity; try discriminate; lia.
Qed.

Lemma date_eqb_cmp (a b : date) : date_eqb a b = true <-> date_cmp a b = Eq.
Proof.
  unfold date_eqb, date_cmp.
  destruct (Z.compare_spec (year a) (year b));
    destruct (Z.compare_spec (month a) (month b));
    destruct (Z.compare_spec (day a) (day b));
    rewrite ?andb_true_iff, ?Z.eqb_eq;
    split; intros; try reflexivity; try discriminate; lia.
Qed.

(** Text. *)

Lemma str_cmp_eq (a b : str) : str_cmp a b = Eq <-> a = b.
Proof.
  revert b. induction a as [|x a IH]; intros [|y b]; cbn;
    try (split; [reflexivity || discriminate | reflexivity || discriminate]).
  destruct (N.compare_spec x y) as [->|H|H].
  - rewrite IH. split; [intros -> | intros [= ->]]; reflexivity.
  - split; [discriminate | intros [= -> _]; lia].
  - split; [discriminate | intros [= -> _]; lia].
Qed.

Lemma str_total_preorder : total_preorder (fun _ => True) str_cmp.
Proof.
  split.
  - intros a b _ _. revert b.
    induction a as [|x a IH]; intros [|y b]; cbn; try reflexivity.
    rewrite (N.compare_antisym x y).
    destruct (x ?= y)%N; cbn; auto.
  - intros a b c _ _ _. revert b c.
    induction a as [|x a IH]; intros [|y b] [|z c]; cbn; try congruence.
    destruct (N.compare_spec x y); destruct (N.compare_spec y z);
      destruct (N.compare_spec x z); try lia; try congruence.
    apply IH.
Qed.

Lemma str_ltb_cmp (a b : str) : str_ltb a b = true <-> str_cmp a b = Lt.
Proof.
  revert b. induction a as [|x a IH]; intros [|y b]; cbn;
    try (split; [reflexivity || discriminate | reflexivity || discriminate]).
  destruct (N.compare_spec x y) as [->|H|H].
  - rewrite N.ltb_irrefl. apply IH.
  - apply N.ltb_lt in H. rewrite H. split; reflexivity.
  - destruct (N.ltb_spec x y); [lia|].
    apply N.ltb_lt in H. rewrite H. split; discriminate.
Qed.

Lemma str_eqb_cmp (a b : str) : str_eqb a b = true <-> str_cmp a b = Eq.
Proof. unfold str_eqb. rewrite bool_decide_eq_true, str_cmp_eq. reflexivity. Qed.

End Preorders.

(** * The sort key and the head of a sorted list *)

Section KeyFacts.
Import Py Order.

Lemma flt_cmp (a b : float) : flt a b = true <-> fcmp a b = Lt.
Proof.
  unfold flt, SFltb, fcmp.
  destruct (SFcompare a b) as [[]|]; split; congruence.
Qed.

Lemma fgt_cmp (a b : float) : fgt a b = true <-> fcmp a b = Gt.
Proof.
  unfold fgt, fcmp. destruct (SFcompare a b) as [[]|]; split; congruence.
Qed.

Lemma SFcompare_some (a b : float) :
  is_nan a = false -> is_nan b = false -> SFcompare a b = Some (fcmp a b).
Proof.
  unfold fcmp.
  destruct a as [| | |], b as [| | |]; try discriminate; intros _ _; reflexivity.
Qed.

Lemma feq_cmp (a b : float) :
  is_nan a = false -> is_nan b = false -> (feq a b = true <-> fcmp a b = Eq).
Proof.
  intros Ha Hb. unfold feq, SFeqb. rewrite SFcompare_some by assumption.
  destruct (fcmp a b); split; congruence.
Qed.

Lemma fle_cmp (a b : float) :
  is_nan a = false -> is_nan b = false -> (fle a b = true <-> fcmp a b <> Gt).
Proof.
  intros Ha Hb. unfold fle, SFleb. rewrite SFcompare_some by assumption.
  destruct (fcmp a b); split; congruence.
Qed.

Lemma fle_not_nan (a b : float) :
  fle a b = true -> is_nan a = false /\ is_nan b = false.
Proof.
  unfold fle, SFleb.
  destruct a as [| | |], b as [| | |]; cbn; try discriminate; auto.
Qed.

Lemma is_nan_fneg (a : float) : is_nan (fneg a) = is_nan a.
Proof. destruct a; reflexivity. Qed.

(** Negation turns the order round. *)
Lemma fcmp_fneg (a b : float) : fcmp (fneg a) (fneg b) = fcmp b a.
Proof.
  unfold fcmp.
  destruct a as [sa|sa| |sa ma ea], b as [sb|sb| |sb mb eb]; cbn;
    try reflexivity;
    try (destruct sa; reflexivity); try (destruct sb; reflexivity);
    try (destruct sa, sb; reflexivity).
  destruct sa, sb; cbn; try reflexivity.
  - rewrite (Z.compare_antisym ea eb).
    destruct (ea ?= eb); cbn; try reflexivity.
    now rewrite Pos.compare_cont_antisym.
  - rewrite (Z.compare_antisym ea eb).
    destruct (ea ?= eb); cbn; try reflexivity.
    now rewrite Pos.compare_cont_antisym.
Qed.

Lemma key_total_preorder : total_preorder key_ok key_cmp.
Proof.
  pose proof (lex_total_preorder float_total_preorder
                (lex_total_preorder date_total_preorder str_total_preorder))
    as [Hopp Htrans].
  split.
  - intros [[d1 e1] c1] [[d2 e2] c2] H1 H2.
    apply (Hopp (d1, (e1, c1)) (d2, (e2, c2))); cbn; auto.
  - intros [[d1 e1] c1] [[d2 e2] c2] [[d3 e3] c3] H1 H2 H3.
    apply (Htrans (d1, (e1, c1)) (d2, (e2, c2)) (d3, (e3, c3))); cbn; auto.
Qed.

(** The tuple comparison of the interpreter is the strict part of
    [key_cmp]. *)
Lemma key_ltb_cmp (a b : key) :
  key_ok a -> key_ok b -> (key_ltb a b = true <-> key_cmp a b = Lt).
Proof.
  destruct a as [[d1 e1] c1], b as [[d2 e2] c2]. unfold key_ok; cbn.
  intros H1 H2. unfold fne.
  pose proof (feq_cmp d1 d2 H1 H2) as Hf.
  pose proof (date_eqb_cmp e1 e2) as Hd.
  pose proof (str_eqb_cmp c1 c2) as Hs.
  unfold feq in Hf. destruct (SFeqb d1 d2); cbn.
  - rewrite (proj1 Hf eq_refl); cbn.
    destruct (date_eqb e1 e2); cbn.
    + rewrite (proj1 Hd eq_refl); cbn.
      destruct (str_eqb c1 c2); cbn.
      * rewrite (proj1 Hs eq_refl). cbn. split; intros; discriminate.
      * apply str_ltb_cmp.
    + rewrite date_ltb_cmp.
      destruct (date_cmp e1 e2); cbn; try (split; congruence).
      discriminate (proj2 Hd eq_refl).
  - rewrite flt_cmp.
    destruct (fcmp d1 d2); cbn; try (split; congruence).
    discriminate (proj2 Hf eq_refl).
Qed.

Section Sorting.
Context {A : Type} (keyfn : A -> key).

Lemma sort_cons (x : A) (l : list A) :
  sort keyfn (x :: l) = insert keyfn x (sort keyfn l).
Proof. reflexivity. Qed.

Lemma head_insert (x : A) (l : list A) :
  head (insert keyfn x l)
  = Some match head l with
         | Some y => if key_ltb (keyfn y) (keyfn x) then y else x
         | None => x
         end.
Proof.
  destruct l as [|y l]; cbn; [reflexivity|].
  destruct (key_ltb (keyfn y) (keyfn x)); reflexivity.
Qed.

(** The head of the sorted list is the first element of the list that no
    other element precedes: it is strictly before everything that stands
    earlier in the list and not after anything that stands later. *)
Lemma sort_head (l : list A) :
  l <> [] ->
  Forall (fun x => key_ok (keyfn x)) l ->
  exists b l1 l2,
    head (sort keyfn l) = Some b /\ l = l1 ++ b :: l2
    /\ (forall x, In x l1 -> key_cmp (keyfn b) (keyfn x) = Lt)
    /\ (forall x, In x l2 -> key_cmp (keyfn b) (keyfn x) <> Gt).
Proof.
  pose proof key_total_preorder as TP.
  induction l as [|x l IH]; [congruence|]. intros _ Hok.
  apply Forall_cons_iff in Hok as [Hx Hok].
  rewrite sort_cons, head_insert.
  destruct l as [|y l'].
  - exists x, [], []. cbn. repeat split; intros ? [].
  - destruct (IH ltac:(discriminate) Hok) as (h & l1 & l2 & Hh & Hl & H1 & H2).
    rewrite Hh.
    assert (Hhok : key_ok (keyfn h)).
    { rewrite List.Forall_forall in Hok. apply Hok. rewrite Hl.
      apply in_or_app. right. left. reflexivity. }
    assert (Hin : forall z, In z (y :: l') -> key_ok (keyfn z)).
    { rewrite List.Forall_forall in Hok. exact Hok. }
    destruct (key_ltb (keyfn h) (keyfn x)) eqn:E.
    + apply key_ltb_cmp in E; auto.
      exists h, (x :: l1), l2. rewrite Hl. cbn. repeat split; auto.
      intros z [<-|Hz]; auto.
    + exists x, [], (y :: l').
      split; [reflexivity|]. split; [reflexivity|]. split; [intros ? []|].
      intros z Hz.
      assert (Hxh : key_cmp (keyfn x) (keyfn h) <> Gt).
      { apply (tp_ge TP); auto. intros C. apply key_ltb_cmp in C; auto.
        congruence. }
      apply (cmp_trans _ _ TP _ (keyfn h)); auto.
      rewrite Hl in Hz. apply in_app_or in Hz as [Hz|[<-|Hz]].
      * rewrite (H1 z Hz). discriminate.
      * rewrite (tp_refl TP) by auto. discriminate.
      * auto.
Qed.

End Sorting.

End KeyFacts.

(** * The discount *)

Section Discount.
Import Py Models Order.

Lemma fgt_not_nan (a b : float) : fgt a b = true -> is_nan a = false.
Proof. unfold fgt. destruct a; cbn; try discriminate; reflexivity. Qed.

Lemma fle_refl (a : float) : is_nan a = false -> fle a a = true.
Proof.
  intros Ha. apply fle_cmp; auto.
  rewrite (tp_refl float_total_preorder); [discriminate | assumption].
Qed.

(** What [max(0.0, min(d, v))] is worth, whatever [d] is. *)
Lemma clamp_range (d v : float) :
  fle fzero v = true ->
  fle fzero (Py.max fzero (Py.min d v)) = true
  /\ fle (Py.max fzero (Py.min d v)) v = true.
Proof.
  intros Hv. destruct (fle_not_nan _ _ Hv) as [_ Hvn].
  unfold Py.max. destruct (fgt (Py.min d v) fzero) eqn:E.
  - pose proof (fgt_not_nan _ _ E) as Hm. split.
    + apply fle_cmp; auto.
      rewrite (cmp_opp _ _ float_total_preorder (Py.min d v) fzero); auto.
      apply fgt_cmp in E. rewrite E. discriminate.
    + revert Hm. unfold Py.min. destruct (flt v d) eqn:F; intros Hm.
      * now apply fle_refl.
      * apply fle_cmp; auto. apply (tp_ge float_total_preorder); auto.
        intros C. apply flt_cmp in C. congruence.
  - split; [reflexivity | assumption].
Qed.

Lemma main_compute_discount_eq (coupon : Coupon) (cart_value : float) :
  Main.compute_discount coupon cart_value = Logic.compute_discount coupon cart_value.
Proof. reflexivity. Qed.

(** C1. For every coupon, whatever its type, value and cap, and every
    cart value [v] with [0 <= v], the discount computed (by [logic.py]
    and by [main.py] alike) lies in the closed interval from 0 to [v]. *)
Theorem compute_discount_in_range (coupon : Coupon) (v : float) :
  fle fzero v = true ->
  (fle fzero (Logic.compute_discount coupon v) = true
   /\ fle (Logic.compute_discount coupon v) v = true)
  /\ (fle fzero (Main.compute_discount coupon v) = true
      /\ fle (Main.compute_discount coupon v) v = true).
Proof.
  intros Hv.
  split; [unfold Logic.compute_discount | unfold Main.compute_discount];
    now apply clamp_range.
Qed.

End Discount.

(** * The candidate filter *)

Section Pipeline.
Import Py Models Storage Filter.


Lemma has_remaining_usage_run (c : Coupon) (u : UserContext) (s : store) :
  Logic.has_remaining_usage c u s
  = (Return match usageLimitPerUser c with
            | None => true
            | Some limit =>
                default 0 (USAGE_PER_USER s !! (userId u, code c)) <? limit
            end, s).
Proof.
  unfold Logic.has_remaining_usage. destruct (usageLimitPerUser c); reflexivity.
Qed.

Lemma candidate_of_weaken today user cart cv ifo s c coupons
    (l : list (Coupon * float)) :
  Forall (candidate_of today user cart cv ifo s coupons) l ->
  Forall (candidate_of today user cart cv ifo s (c :: coupons)) l.
Proof.
  apply List.Forall_impl. intros cd (H1 & H2). split; [right|]; assumption.
Qed.

(** The loop leaves the store as it found it, and whatever it appends to
    the list passed all four checks and carries its own positive
    discount. *)
Lemma candidates_loop_spec today user cart cv ifo (coupons : list Coupon) :
  forall (acc : list (Coupon * float)) (s : store),
  exists r,
    Main.candidates_loop today user cart cv ifo coupons acc s = (r, s)
    /\ forall l,
        r = Return l ->
        exists new,
          l = acc ++ new
          /\ Forall (candidate_of today user cart cv ifo s coupons) new.
Proof.
  induction coupons as [|c coupons IH]; intros acc s.
  - exists (Return acc). split; [reflexivity|].
    intros l [= <-]. exists []. now rewrite app_nil_r.
  - assert (Hskip : exists r,
      Main.candidates_loop today user cart cv ifo coupons acc s = (r, s)
      /\ forall l,
          r = Return l ->
          exists new,
            l = acc ++ new
            /\ Forall (candidate_of today user cart cv ifo s (c :: coupons)) new).
    { destruct (IH acc s) as (r & H1 & H2). exists r. split; [assumption|].
      intros l Hl. destruct (H2 l Hl) as (new & -> & Hnew).
      exists new. split; [reflexivity|]. now apply candidate_of_weaken. }
    cbn [Main.candidates_loop]. cbv zeta.
    destruct (Logic.is_within_date_range today c (Some today)) eqn:Hdate;
      cbn [negb]; [|exact Hskip].
    unfold mbind at 1. rewrite has_remaining_usage_run.
    pose proof (has_remaining_usage_run c user s) as Hrem.
    destruct (match usageLimitPerUser c with
              | Some limit => _
              | None => true
              end) eqn:Huse; cbn [negb]; [|exact Hskip].
    destruct (Logic.user_eligibility_ok (eligibility c) user ifo) eqn:Huser;
      cbn [negb]; [|exact Hskip].
    unfold mbind at 1, lift.
    destruct (Logic.cart_eligibility_ok (eligibility c) cart) as [[|]|e] eqn:Hcart;
      cbn [negb];
      [| exact Hskip | exists (Raise e); split; [reflexivity | intros l [= ]]].
    destruct (fgt (Main.compute_discount c cv) fzero) eqn:Hpos; [|exact Hskip].
    destruct (IH (acc ++ [(c, Main.compute_discount c cv)]) s) as (r & H1 & H2).
    exists r. split; [assumption|].
    intros l Hl. destruct (H2 l Hl) as (new & -> & Hnew).
    exists ((c, Main.compute_discount c cv) :: new).
    split; [now rewrite <- app_assoc|].
    constructor; [|now apply candidate_of_weaken].
    repeat split; cbn [fst snd]; auto.
    + now left.
    + now rewrite Hrem.
Qed.

(** The candidate list of a request: the store is not written, and every
    candidate is a coupon of the catalog that passed the checks. *)
Lemma candidate_discounts_spec (today : date) (payload : BestCouponRequest)
    (s : store) :
  exists r,
    Main.candidate_discounts today payload s = (r, s)
    /\ forall l,
        r = Return l ->
        exists cv,
          Logic.compute_cart_value (cart payload) = Return cv
          /\ Forall (candidate_of today (user payload) (cart payload) cv
                       (ordersPlaced (user payload) =? 0) s
                       (dict_values (COUPONS_DB s))) l.
Proof.
  unfold Main.candidate_discounts. cbv zeta. unfold mbind at 1, lift.
  destruct (Logic.compute_cart_value (cart payload)) as [cv|e];
    [|exists (Raise e); split; [reflexivity | intros l [= ]]].
  unfold mbind, read.
  destruct (candidates_loop_spec today (user payload) (cart payload) cv
              (ordersPlaced (user payload) =? 0) (dict_values (COUPONS_DB s))
              [] s) as (r & H1 & H2).
  exists r. split; [assumption|].
  intros l Hl. destruct (H2 l Hl) as (new & -> & Hnew).
  exists cv. split; [reflexivity | assumption].
Qed.

Lemma best_run (today : date) (payload : BestCouponRequest) (s : store) :
  Main.best today payload s
  = (match fst (Main.candidate_discounts today payload s) with
     | Return l => Return (Logic.pick_best_coupon l)
     | Raise e => Raise e
     end, s).
Proof.
  unfold Main.best, mbind, ret.
  destruct (candidate_discounts_spec today payload s) as (r & -> & _).
  destruct r; reflexivity.
Qed.

End Pipeline.

(** * Requests *)

Section Requests.
Import Py Models Storage Order Filter.

Lemma increment_usage_run (c : Coupon) (u : UserContext) (s : store) :
  Logic.increment_usage c u s
  = (Return tt,
     {| COUPONS_DB := COUPONS_DB s;
        USAGE_PER_USER :=
          <[(userId u, code c) :=
              default 0 (USAGE_PER_USER s !! (userId u, code c)) + 1]>
            (USAGE_PER_USER s) |}).
Proof. reflexivity. Qed.

(** C5. A request whose candidate list is empty answers "no coupon" with
    discount 0.0 and leaves the store as it was; a request that answers
    a coupon [c] has raised the counter of (userId, c.code) by exactly
    one and left every other counter, and the catalog, as they were; a
    request that answers "no coupon", or raises, has written nothing. *)
Theorem get_best_coupon_usage (today : date) (payload : BestCouponRequest)
    (s : store) :
  (fst (Main.candidate_discounts today payload s) = Return [] ->
   Main.get_best_coupon today payload s
   = (Return {| coupon := None; discountAmount := fzero |}, s))
  /\ (forall c d s',
        Main.get_best_coupon today payload s
        = (Return {| coupon := Some c; discountAmount := d |}, s') ->
        let k := (userId (user payload), code c) in
        COUPONS_DB s' = COUPONS_DB s
        /\ default 0 (USAGE_PER_USER s' !! k)
           = default 0 (USAGE_PER_USER s !! k) + 1
        /\ forall k', k' <> k -> USAGE_PER_USER s' !! k' = USAGE_PER_USER s !! k')
  /\ (forall d s',
        Main.get_best_coupon today payload s
        = (Return {| coupon := None; discountAmount := d |}, s') ->
        d = fzero /\ s' = s)
  /\ (forall e s',
        Main.get_best_coupon today payload s = (Raise e, s') -> s' = s).
Proof.
  unfold Main.get_best_coupon, mbind. cbv beta. rewrite best_run.
  destruct (fst (Main.candidate_discounts today payload s)) as [l|e].
  - split; [|split; [|split]].
    + intros [= ->]. reflexivity.
    + intros c d s'.
      destruct (Logic.pick_best_coupon l) as [[bc bd]|]; [|intros [= ]].
      unfold ret. rewrite increment_usage_run.
      intros [= <- _ <-]. cbn. repeat split.
      * now rewrite lookup_insert_eq.
      * intros k' Hk'. now rewrite lookup_insert_ne.
    + intros d s'.
      destruct (Logic.pick_best_coupon l) as [[bc bd]|].
      * unfold ret. rewrite increment_usage_run. intros [= ].
      * intros [= <- <-]. auto.
    + intros e s'.
      destruct (Logic.pick_best_coupon l) as [[bc bd]|].
      * unfold ret. rewrite increment_usage_run. intros [= ].
      * intros [= ].
  - split; [intros [= ] | split; [intros c d s' [= ] | split]].
    + intros d s' [= ].
    + intros e' s' [= _ <-]. reflexivity.
Qed.

(** C9. Evaluating a request up to the selection writes nothing, so that
    a second evaluation, started from the store the first one left, selects
    the same coupon with the same discount (or raises the same error). *)
Theorem evaluation_deterministic (today : date) (payload : BestCouponRequest)
    (s : store) :
  let run1 := Main.best today payload s in
  let run2 := Main.best today payload (snd run1) in
  fst run2 = fst run1 /\ snd run1 = s /\ snd run2 = s.
Proof.
  cbv zeta. rewrite (best_run today payload s). cbn [fst snd].
  rewrite (best_run today payload s). auto.
Qed.

(** No candidate without the four checks passed. *)
Lemma candidate_passes (today : date) (payload : BestCouponRequest) (s : store)
    (cs : list (Coupon * float)) (c : Coupon) (d : float) :
  fst (Main.candidate_discounts today payload s) = Return cs ->
  In (c, d) cs ->
  exists cv,
    candidate_of today (user payload) (cart payload) cv
      (ordersPlaced (user payload) =? 0) s (dict_values (COUPONS_DB s)) (c, d).
Proof.
  intros Hcs Hin.
  destruct (candidate_discounts_spec today payload s) as (r & Hr & H).
  rewrite Hr in Hcs. cbn in Hcs.
  destruct (H cs Hcs) as (cv & _ & Hall).
  exists cv. rewrite List.Forall_forall in Hall. now apply Hall.
Qed.

(** C6. [has_remaining_usage] answers true exactly when the coupon has no
    per-user limit or the user's recorded count for its code (0 when there
    is none) is strictly below the limit; hence a coupon with limit 1 and
    a recorded count of 1 is no candidate for that user. *)
Theorem has_remaining_usage_iff (c : Coupon) (u : UserContext) (s : store) :
  (exists b,
     Logic.has_remaining_usage c u s = (Return b, s)
     /\ (b = true <->
         usageLimitPerUser c = None
         \/ exists limit,
              usageLimitPerUser c = Some limit
              /\ default 0 (USAGE_PER_USER s !! (userId u, code c)) < limit))
  /\ (forall today payload cs,
        user payload = u ->
        usageLimitPerUser c = Some 1 ->
        USAGE_PER_USER s !! (userId u, code c) = Some 1 ->
        fst (Main.candidate_discounts today payload s) = Return cs ->
        forall d, ~ In (c, d) cs).
Proof.
  split.
  - rewrite has_remaining_usage_run. eexists. split; [reflexivity|].
    destruct (usageLimitPerUser c) as [limit|].
    + rewrite Z.ltb_lt. split.
      * intros H. right. exists limit. auto.
      * intros [[= ]|(l' & [= <-] & H)]. assumption.
    + split; auto.
  - intros today payload cs <- Hlim Huse Hcs d Hin.
    destruct (candidate_passes _ _ _ _ _ _ Hcs Hin) as (cv & _ & (_ & Hrem & _) & _).
    cbn [fst] in Hrem. rewrite has_remaining_usage_run, Hlim, Huse in Hrem.
    discriminate Hrem.
Qed.

Lemma date_leb_cmp (a b : date) : date_leb a b = true <-> date_cmp a b <> Gt.
Proof.
  unfold date_leb. rewrite orb_true_iff, date_ltb_cmp, date_eqb_cmp.
  destruct (date_cmp a b); split; try congruence; auto.
  intros [H|H]; discriminate H.
Qed.

(** C10. A coupon whose startDate is strictly after its endDate is in
    range on no date, and is a candidate of no request. *)
Theorem inverted_window_inactive (c : Coupon) :
  date_ltb (endDate c) (startDate c) = true ->
  (forall clock today, Logic.is_within_date_range clock c today = false)
  /\ (forall today payload s cs,
        fst (Main.candidate_discounts today payload s) = Return cs ->
        forall d, ~ In (c, d) cs).
Proof.
  intros Hinv.
  assert (Hno : forall clock today, Logic.is_within_date_range clock c today = false).
  { intros clock today. unfold Logic.is_within_date_range.
    apply not_true_is_false. rewrite andb_true_iff, !date_leb_cmp.
    intros [H1 H2].
    pose proof (cmp_trans _ _ date_total_preorder _ _ _ I I I H1 H2) as H.
    apply date_ltb_cmp in Hinv.
    apply H. now apply (tp_lt_gt date_total_preorder). }
  split; [exact Hno|].
  intros today payload s cs Hcs d Hin.
  destruct (candidate_passes _ _ _ _ _ _ Hcs Hin) as (cv & _ & (Hdate & _) & _).
  cbn [fst] in Hdate. rewrite Hno in Hdate. discriminate Hdate.
Qed.

End Requests.

(** * The catalog *)

Section Catalog.
Import Py Models Storage.

Lemma str_eqb_eq (a b : str) : str_eqb a b = true <-> a = b.
Proof. unfold str_eqb. apply bool_decide_eq_true. Qed.

Lemma str_eqb_refl (a : str) : str_eqb a a = true.
Proof. now apply str_eqb_eq. Qed.

Lemma str_eqb_neq (a b : str) : str_eqb a b = false <-> a <> b.
Proof. unfold str_eqb. apply bool_decide_eq_false. Qed.

Lemma dict_get_set_eq {V : Type} (k : str) (v : V) (d : dict V) :
  dict_get k (dict_set k v d) = Some v.
Proof.
  induction d as [|[k' v'] d IH]; cbn.
  - now rewrite str_eqb_refl.
  - destruct (str_eqb k k') eqn:E; cbn; rewrite E; auto.
Qed.

Lemma dict_get_set_ne {V : Type} (k k' : str) (v : V) (d : dict V) :
  k' <> k -> dict_get k' (dict_set k v d) = dict_get k' d.
Proof.
  intros Hne. induction d as [|[k0 v0] d IH]; cbn.
  - apply str_eqb_neq in Hne. now rewrite Hne.
  - destruct (str_eqb k k0) eqn:E; cbn.
    + apply str_eqb_eq in E. subst k0.
      apply str_eqb_neq in Hne. now rewrite Hne.
    + now rewrite IH.
Qed.

(** A key that is not there yet goes to the end of the dictionary. *)
Lemma dict_set_fresh {V : Type} (k : str) (v : V) (d : dict V) :
  dict_contains k d = false -> dict_set k v d = d ++ [(k, v)].
Proof.
  unfold dict_contains. induction d as [|[k' v'] d IH]; cbn; [reflexivity|].
  destruct (str_eqb k k'); [discriminate|]. intros H. now rewrite IH.
Qed.

(** C8. Whatever function upper-cases the code ([str.upper] in the
    program): creating a coupon whose upper-cased code is a key of the
    catalog raises the rejection (status 400) and leaves the store as it
    was; otherwise the coupon, with its code replaced by the upper-cased
    code, is stored under that code (after the coupons already there), and
    every other entry of the catalog and the usage counters are
    unchanged. *)
Theorem create_coupon_spec (str_upper : str -> str) (coupon : Coupon)
    (s : store) :
  let code_upper := str_upper (code coupon) in
  (dict_contains code_upper (COUPONS_DB s) = true ->
   Main.create_coupon str_upper coupon s
   = (Raise (HTTPException 400 "Coupon code already exists"), s))
  /\ (dict_contains code_upper (COUPONS_DB s) = false ->
      exists s',
        Main.create_coupon str_upper coupon s
        = (Return (set_code code_upper coupon), s')
        /\ code (set_code code_upper coupon) = code_upper
        /\ dict_get code_upper (COUPONS_DB s') = Some (set_code code_upper coupon)
        /\ (forall k, k <> code_upper ->
              dict_get k (COUPONS_DB s') = dict_get k (COUPONS_DB s))
        /\ dict_values (COUPONS_DB s')
           = dict_values (COUPONS_DB s) ++ [set_code code_upper coupon]
        /\ USAGE_PER_USER s' = USAGE_PER_USER s).
Proof.
  cbv zeta. unfold Main.create_coupon, mbind, read, write, raise, ret. cbv beta.
  split; intros H; rewrite H.
  - reflexivity.
  - eexists. split; [reflexivity|]. cbn [COUPONS_DB USAGE_PER_USER].
    repeat split.
    + apply dict_get_set_eq.
    + intros k Hk. now apply dict_get_set_ne.
    + rewrite dict_set_fresh by assumption.
      unfold dict_values. now rewrite map_app.
Qed.

End Catalog.

(** * Upper-casing and the type of a discount *)

Section Types.
Import Py Models Storage Filter.

Lemma upper_char_ascii (c : N) :
  (c < 128)%N -> upper_char c = [ascii_upper_char c].
Proof.
  intros Hc. unfold upper_char, ascii_upper_char.
  destruct ((97 <=? c)%N && (c <=? 122)%N); [reflexivity|].
  repeat match goal with
         | |- context [(c =? ?n)%N] =>
             destruct (N.eqb_spec c n); [lia|]
         end.
  reflexivity.
Qed.

(** On text of the Basic Latin block, [upper] is the case fold of the
    letters a-z. *)
Lemma upper_ascii (s : str) :
  Forall (fun c => (c < 128)%N) s -> upper s = ascii_upper s.
Proof.
  induction 1 as [|c s Hc _ IH]; [reflexivity|].
  unfold upper, ascii_upper in *. cbn [flat_map map].
  now rewrite upper_char_ascii, IH.
Qed.

Lemma zero_discount_clamped (v : float) :
  Py.max fzero (Py.min fzero v) = fzero.
Proof.
  unfold Py.min, Py.max. destruct (flt v fzero) eqn:E; [|reflexivity].
  destruct (fgt v fzero) eqn:G; [|reflexivity].
  apply flt_cmp in E. apply fgt_cmp in G. congruence.
Qed.

Lemma unknown_type_discount (c : Coupon) (v : float) :
  upper (discountType c) <> lit "FLAT" ->
  upper (discountType c) <> lit "PERCENT" ->
  Logic.compute_discount c v = fzero.
Proof.
  intros H1 H2. unfold Logic.compute_discount.
  apply str_eqb_neq in H1, H2. rewrite H1, H2. apply zero_discount_clamped.
Qed.

(** C7, as the code has it.  A coupon whose discountType, upper-cased the
    way the code upper-cases it ([str.upper()], which follows the Unicode
    case mapping and agrees with the case fold of a-z on Basic Latin
    text), is neither "FLAT" nor "PERCENT" gets the discount 0.0 for every
    cart value, from a function that cannot raise, and is a candidate of
    no request; so does a coupon whose discountType is Basic Latin text
    and is neither of the two after the case fold of a-z. *)
Theorem unknown_type_zero (c : Coupon) :
  (upper (discountType c) <> lit "FLAT" ->
   upper (discountType c) <> lit "PERCENT" ->
   (forall v,
      Logic.compute_discount c v = fzero /\ Main.compute_discount c v = fzero)
   /\ (forall today payload s cs,
         fst (Main.candidate_discounts today payload s) = Return cs ->
         forall d, ~ In (c, d) cs))
  /\ (Forall (fun ch => (ch < 128)%N) (discountType c) ->
      ascii_upper (discountType c) <> lit "FLAT" ->
      ascii_upper (discountType c) <> lit "PERCENT" ->
      forall v,
        Logic.compute_discount c v = fzero /\ Main.compute_discount c v = fzero).
Proof.
  split.
  - intros H1 H2. split.
    + intros v. split; [|rewrite main_compute_discount_eq];
        now apply unknown_type_discount.
    + intros today payload s cs Hcs d Hin.
      destruct (candidate_passes _ _ _ _ _ _ Hcs Hin) as (cv & _ & _ & Hd & Hpos).
      cbn [fst snd] in Hd, Hpos.
      rewrite Hd, main_compute_discount_eq, unknown_type_discount in Hpos
        by assumption.
      discriminate Hpos.
  - intros Hascii H1 H2 v. rewrite <- (upper_ascii _ Hascii) in H1, H2.
    split; [|rewrite main_compute_discount_eq];
      now apply unknown_type_discount.
Qed.

(** C3, as the code has it.  [compute_discount] is the reference
    definition taken with the upper-casing of the code, and with the case
    fold of a-z whenever the discountType is Basic Latin text; FLAT with
    value 10 on a cart of 5 gives 5 whatever the cap, and PERCENT with
    value 50 and cap 20 on a cart of 100 gives 20. *)
Theorem compute_discount_reference :
  (forall c v,
     Logic.compute_discount c v = Reference.discount upper c v
     /\ Main.compute_discount c v = Reference.discount upper c v)
  /\ (forall c v,
        Forall (fun ch => (ch < 128)%N) (discountType c) ->
        Logic.compute_discount c v = Reference.discount ascii_upper c v)
  /\ (forall c,
        upper (discountType c) = lit "FLAT" ->
        discountValue c = float_of_Z 10 ->
        Logic.compute_discount c (float_of_Z 5) = float_of_Z 5)
  /\ (forall c,
        upper (discountType c) = lit "PERCENT" ->
        discountValue c = float_of_Z 50 ->
        maxDiscountAmount c = Some (float_of_Z 20) ->
        Logic.compute_discount c (float_of_Z 100) = float_of_Z 20).
Proof.
  split; [|split; [|split]].
  - intros c v. split; reflexivity.
  - intros c v Hascii.
    unfold Reference.discount, Reference.raw_discount, Reference.clamp.
    rewrite <- (upper_ascii _ Hascii). reflexivity.
  - intros c Ht Hv. unfold Logic.compute_discount. rewrite Ht, Hv.
    vm_compute. reflexivity.
  - intros c Ht Hv Hcap. unfold Logic.compute_discount. rewrite Ht, Hv, Hcap.
    vm_compute. reflexivity.
Qed.

End Types.


(** * Cart eligibility *)

Section CartRules.
Import Py Models Storage Reference Filter.

Lemma str_in_In (x : str) (l : list str) : str_in x l = true <-> In x l.
Proof.
  unfold str_in. rewrite existsb_exists. split.
  - intros (y & Hy & E). apply str_eqb_eq in E. now subst.
  - intros H. exists x. split; [assumption | apply str_eqb_refl].
Qed.

Lemma In_remove_dups (x : str) (l : list str) :
  In x (remove_dups l) <-> In x l.
Proof. rewrite <- !list_elem_of_In. apply elem_of_remove_dups. Qed.

Lemma any_category_iff (l : list str) (cart : Cart) :
  existsb (fun c => str_in c l) (Logic.get_cart_categories cart) = true
  <-> exists x, In x (map category (items cart)) /\ In x l.
Proof.
  unfold Logic.get_cart_categories. rewrite existsb_exists. split.
  - intros (x & Hx & Hl). exists x. split; [|now apply str_in_In].
    now apply In_remove_dups.
  - intros (x & Hx & Hl). exists x. split; [|now apply str_in_In].
    now apply In_remove_dups.
Qed.

Lemma truthy_given_nonempty {A : Type} (o : option (list A)) :
  truthy o = true <-> exists l, o = Some l /\ l <> [].
Proof.
  destruct o as [[|x l]|]; cbn; split; try discriminate.
  - intros (l & [= <-] & H). congruence.
  - intros _. eexists. split; [reflexivity | discriminate].
  - intros _. reflexivity.
  - intros (l & [= ] & _).
Qed.


Lemma cart_eligibility_ok_run (elig : Eligibility) (cart : Cart) :
  Logic.cart_eligibility_ok elig cart
  = (v <- Logic.compute_cart_value cart ;;
     Return (negb (cart_rule_broken elig v cart))).
Proof.
  unfold Logic.cart_eligibility_ok, cart_rule_broken.
  destruct (Logic.compute_cart_value cart) as [v|e]; cbn [bind]; [|reflexivity].
  cbv zeta.
  destruct (match minCartValue elig with Some m => flt v m | None => false end);
    [reflexivity|].
  destruct (match minItemsCount elig with
            | Some m => Logic.compute_items_count cart <? m
            | None => false
            end); [reflexivity|].
  destruct (truthy (applicableCategories elig)
            && negb (existsb _ (Logic.get_cart_categories cart)));
    [reflexivity|].
  destruct (truthy (excludedCategories elig)
            && existsb _ (Logic.get_cart_categories cart)); reflexivity.
Qed.

Lemma cart_rule_broken_iff (elig : Eligibility) (v : float) (cart : Cart) :
  cart_rule_broken elig v cart = true
  <-> cart_violation given_nonempty elig v cart.
Proof.
  unfold cart_rule_broken, cart_violation, given_nonempty.
  rewrite !orb_true_iff, !andb_true_iff, negb_true_iff.
  rewrite !truthy_given_nonempty.
  split.
  - intros [[[H|H]|[(l & Hl & Hne) H]]|[(l & Hl & Hne) H]].
    + left. destruct (minCartValue elig) as [m|]; [|discriminate]. eauto.
    + right; left. destruct (minItemsCount elig) as [m|]; [|discriminate].
      apply Z.ltb_lt in H. eauto.
    + right; right; left. exists l. repeat split; auto.
      rewrite Hl in H. cbn [elements] in H.
      intros x Hx Hin.
      assert (E : existsb (fun c => str_in c l) (Logic.get_cart_categories cart) = true)
        by (apply any_category_iff; eauto).
      congruence.
    + right; right; right. exists l. repeat split; auto.
      rewrite Hl in H. cbn [elements] in H. now apply any_category_iff.
  - intros [(m & Hm & H)|[(m & Hm & H)|[(l & (Hl & Hne) & H)|(l & (Hl & Hne) & H)]]].
    + left; left; left. now rewrite Hm.
    + left; left; right. rewrite Hm. now apply Z.ltb_lt.
    + left; right. split; [eauto|]. rewrite Hl. cbn [elements].
      apply not_true_is_false. intros E. apply any_category_iff in E.
      destruct E as (x & Hx & Hin). exact (H x Hx Hin).
    + right. split; [eauto|]. rewrite Hl. cbn [elements].
      now apply any_category_iff.
Qed.

(** C4, as the code has it.  On a cart whose value can be computed, the
    check answers false exactly when a constraint that is present is
    violated, and true otherwise, where a category set counts as present
    only when it has a member; a rule set whose applicable categories are
    "electronics" alone fails a cart of "grocery" items. *)
Theorem cart_eligibility_ok_iff :
  (forall elig cart v,
     Logic.compute_cart_value cart = Return v ->
     (Logic.cart_eligibility_ok elig cart = Return false
      <-> cart_violation given_nonempty elig v cart)
     /\ (Logic.cart_eligibility_ok elig cart = Return true
         <-> ~ cart_violation given_nonempty elig v cart))
  /\ (forall elig cart v,
        Logic.compute_cart_value cart = Return v ->
        applicableCategories elig = Some [lit "electronics"] ->
        Forall (fun item => category item = lit "grocery") (items cart) ->
        Logic.cart_eligibility_ok elig cart = Return false).
Proof.
  assert (Hmain : forall elig cart v,
     Logic.compute_cart_value cart = Return v ->
     (Logic.cart_eligibility_ok elig cart = Return false
      <-> cart_violation given_nonempty elig v cart)
     /\ (Logic.cart_eligibility_ok elig cart = Return true
         <-> ~ cart_violation given_nonempty elig v cart)).
  { intros elig cart v Hv. rewrite cart_eligibility_ok_run, Hv. cbn [bind].
    rewrite <- cart_rule_broken_iff.
    destruct (cart_rule_broken elig v cart); cbn; split; split;
      congruence. }
  split; [exact Hmain|].
  intros elig cart v Hv Happ Hcart.
  apply (Hmain elig cart v Hv). right; right; left.
  exists [lit "electronics"]. split; [split; [assumption | discriminate]|].
  intros x Hx Hin. apply in_map_iff in Hx as (item & <- & Hitem).
  rewrite List.Forall_forall in Hcart. rewrite (Hcart item Hitem) in Hin.
  destruct Hin as [Hin|[]]. vm_compute in Hin. discriminate Hin.
Qed.

End CartRules.

(** * The selection *)

Section Selection.
Import Py Models Storage Order Reference.

Lemma sort_key_ok (cd : Coupon * float) :
  is_nan (snd cd) = false -> key_ok (Logic.sort_key cd).
Proof. unfold key_ok, Logic.sort_key. cbn. now rewrite is_nan_fneg. Qed.

Lemma key_cmp_sort_key (b x : Coupon * float) :
  key_cmp (Logic.sort_key b) (Logic.sort_key x)
  = lex (fcmp (snd x) (snd b))
      (lex (date_cmp (endDate (fst b)) (endDate (fst x)))
         (str_cmp (code (fst b)) (code (fst x)))).
Proof. unfold Logic.sort_key, key_cmp. now rewrite fcmp_fneg. Qed.

Lemma strictly_before_cmp (b x : Coupon * float) :
  is_nan (snd b) = false -> is_nan (snd x) = false ->
  key_cmp (Logic.sort_key b) (Logic.sort_key x) = Lt -> strictly_before b x.
Proof.
  intros Hb Hx. rewrite key_cmp_sort_key. unfold strictly_before.
  rewrite flt_cmp, (feq_cmp _ _ Hx Hb), date_ltb_cmp, str_ltb_cmp, <- date_cmp_eq.
  destruct (fcmp (snd x) (snd b)); cbn; [|auto|discriminate].
  destruct (date_cmp (endDate (fst b)) (endDate (fst x))); cbn;
    [|auto|discriminate].
  intros H. right. split; [reflexivity|]. right. auto.
Qed.

Lemma before_or_level_cmp (b x : Coupon * float) :
  is_nan (snd b) = false -> is_nan (snd x) = false ->
  key_cmp (Logic.sort_key b) (Logic.sort_key x) <> Gt -> before_or_level b x.
Proof.
  intros Hb Hx H.
  destruct (key_cmp (Logic.sort_key b) (Logic.sort_key x)) eqn:E;
    [|left; now apply strictly_before_cmp|congruence].
  right. rewrite key_cmp_sort_key in E.
  rewrite (feq_cmp _ _ Hx Hb), <- date_cmp_eq, <- str_cmp_eq.
  destruct (fcmp (snd x) (snd b)); cbn in E; try discriminate.
  destruct (date_cmp (endDate (fst b)) (endDate (fst x))); cbn in E;
    try discriminate.
  auto.
Qed.

Lemma feq_refl (d : float) : is_nan d = false -> feq d d = true.
Proof.
  intros H. apply feq_cmp; auto. now apply (tp_refl float_total_preorder).
Qed.

Lemma date_eqb_refl (e : date) : date_eqb e e = true.
Proof. apply date_eqb_cmp. now apply date_cmp_eq. Qed.

(** Two candidates with the same discount: the one whose endDate is
    earlier is selected, wherever it stands in the list. *)
Lemma pick_earlier_end (c1 c2 : Coupon) (d : float) :
  is_nan d = false ->
  date_ltb (endDate c1) (endDate c2) = true ->
  Logic.pick_best_coupon [(c1, d); (c2, d)] = Some (c1, d)
  /\ Logic.pick_best_coupon [(c2, d); (c1, d)] = Some (c1, d).
Proof.
  intros Hd Hlt.
  assert (Hne : date_eqb (endDate c1) (endDate c2) = false).
  { apply not_true_is_false. rewrite date_eqb_cmp. apply date_ltb_cmp in Hlt.
    congruence. }
  assert (Hne' : date_eqb (endDate c2) (endDate c1) = false).
  { apply not_true_is_false. rewrite date_eqb_cmp. apply date_ltb_cmp in Hlt.
    rewrite (cmp_opp _ _ date_total_preorder (endDate c1)), Hlt by exact I.
    discriminate. }
  assert (Hgt : date_ltb (endDate c2) (endDate c1) = false).
  { apply not_true_is_false. rewrite date_ltb_cmp. apply date_ltb_cmp in Hlt.
    rewrite (cmp_opp _ _ date_total_preorder (endDate c1)), Hlt by exact I.
    discriminate. }
  assert (Hf : fne (fneg d) (fneg d) = false).
  { unfold fne. fold (feq (fneg d) (fneg d)).
    rewrite feq_refl; [reflexivity | now rewrite is_nan_fneg]. }
  unfold Logic.pick_best_coupon, sort, Logic.sort_key; cbn.
  rewrite Hf, Hne, Hne', Hlt, Hgt. cbn. auto.
Qed.

(** Two candidates with the same discount and the same endDate: the one
    whose code is smaller is selected, wherever it stands in the list. *)
Lemma pick_smaller_code (c1 c2 : Coupon) (d : float) :
  is_nan d = false ->
  endDate c1 = endDate c2 ->
  str_ltb (code c1) (code c2) = true ->
  Logic.pick_best_coupon [(c1, d); (c2, d)] = Some (c1, d)
  /\ Logic.pick_best_coupon [(c2, d); (c1, d)] = Some (c1, d).
Proof.
  intros Hd He Hlt.
  assert (Hne : str_eqb (code c1) (code c2) = false).
  { apply not_true_is_false. rewrite str_eqb_cmp. apply str_ltb_cmp in Hlt.
    congruence. }
  assert (Hne' : str_eqb (code c2) (code c1) = false).
  { apply not_true_is_false. rewrite str_eqb_cmp. apply str_ltb_cmp in Hlt.
    rewrite (cmp_opp _ _ str_total_preorder (code c1)), Hlt by exact I.
    discriminate. }
  assert (Hgt : str_ltb (code c2) (code c1) = false).
  { apply not_true_is_false. rewrite str_ltb_cmp. apply str_ltb_cmp in Hlt.
    rewrite (cmp_opp _ _ str_total_preorder (code c1)), Hlt by exact I.
    discriminate. }
  assert (Hf : fne (fneg d) (fneg d) = false).
  { unfold fne. fold (feq (fneg d) (fneg d)).
    rewrite feq_refl; [reflexivity | now rewrite is_nan_fneg]. }
  unfold Logic.pick_best_coupon, sort, Logic.sort_key; cbn.
  rewrite Hf, He, date_eqb_refl, Hne, Hne', Hlt, Hgt. cbn. auto.
Qed.

(** The selection does not depend on the order in which the catalog
    hands out the candidates, as long as their codes differ (as the codes
    of the catalog entries do). *)
Lemma pick_best_coupon_permutation (l l' : list (Coupon * float)) :
  Permutation l l' ->
  Forall (fun cd => is_nan (snd cd) = false) l ->
  (forall x y, In x l -> In y l -> code (fst x) = code (fst y) -> x = y) ->
  Logic.pick_best_coupon l' = Logic.pick_best_coupon l.
Proof.
  intros Hp Hnan Hcodes.
  destruct l as [|x0 l0].
  { apply Permutation_nil in Hp. now subst. }
  assert (Hne' : l' <> []).
  { intros ->. apply Permutation_sym, Permutation_nil in Hp. discriminate Hp. }
  assert (Hnan' : Forall (fun cd => is_nan (snd cd) = false) l').
  { rewrite List.Forall_forall in *. intros x Hx. apply Hnan.
    apply (Permutation_in _ (Permutation_sym Hp)). exact Hx. }
  assert (Hok : forall m, Forall (fun cd => is_nan (snd cd) = false) m ->
                          Forall (fun x => key_ok (Logic.sort_key x)) m).
  { intros m. apply List.Forall_impl. intros cd. apply sort_key_ok. }
  destruct (sort_head Logic.sort_key (x0 :: l0) ltac:(discriminate) (Hok _ Hnan))
    as (b & l1 & l2 & Hh & Hl & H1 & H2).
  destruct (sort_head Logic.sort_key l' Hne' (Hok _ Hnan'))
    as (b' & l1' & l2' & Hh' & Hl' & H1' & H2').
  assert (Hle : forall m m1 m2 c z,
            m = m1 ++ c :: m2 ->
            Forall (fun x => key_ok (Logic.sort_key x)) m ->
            (forall x, In x m1 -> key_cmp (Logic.sort_key c) (Logic.sort_key x) = Lt) ->
            (forall x, In x m2 -> key_cmp (Logic.sort_key c) (Logic.sort_key x) <> Gt) ->
            In z m -> key_cmp (Logic.sort_key c) (Logic.sort_key z) <> Gt).
  { intros m m1 m2 c z -> Hm K1 K2 Hz.
    rewrite List.Forall_forall in Hm.
    apply in_app_or in Hz as [Hz|[<-|Hz]].
    - rewrite (K1 z Hz). discriminate.
    - rewrite (tp_refl key_total_preorder); [discriminate|].
      apply Hm. apply in_or_app. right. now left.
    - auto. }
  assert (Hb : In b (x0 :: l0))
    by (rewrite Hl; apply in_or_app; right; now left).
  assert (Hb' : In b' l') by (rewrite Hl'; apply in_or_app; right; now left).
  assert (Hb'l : In b' (x0 :: l0))
    by (apply (Permutation_in _ (Permutation_sym Hp)); exact Hb').
  assert (Hbl' : In b l') by (apply (Permutation_in _ Hp); exact Hb).
  pose proof (Hle _ _ _ _ b' Hl (Hok _ Hnan) H1 H2 Hb'l) as L1.
  pose proof (Hle _ _ _ _ b Hl' (Hok _ Hnan') H1' H2' Hbl') as L2.
  assert (Hkb : key_ok (Logic.sort_key b)).
  { pose proof (Hok _ Hnan) as K. rewrite List.Forall_forall in K. now apply K. }
  assert (Hkb' : key_ok (Logic.sort_key b')).
  { pose proof (Hok _ Hnan) as K. rewrite List.Forall_forall in K. now apply K. }
  assert (E : key_cmp (Logic.sort_key b) (Logic.sort_key b') = Eq).
  { apply (tp_not_lt key_total_preorder) in L2; auto.
    destruct (key_cmp (Logic.sort_key b) (Logic.sort_key b')); congruence. }
  rewrite key_cmp_sort_key in E.
  assert (Hcode : code (fst b) = code (fst b')).
  { apply str_cmp_eq.
    destruct (fcmp (snd b') (snd b)); cbn in E; try discriminate.
    destruct (date_cmp (endDate (fst b)) (endDate (fst b'))); cbn in E;
      try discriminate.
    exact E. }
  pose proof (Hcodes b b' Hb Hb'l Hcode) as <-.
  unfold Logic.pick_best_coupon. destruct l' as [|y0 l0']; [congruence|].
  now rewrite Hh, Hh'.
Qed.

(** C2. From a non-empty list of candidates (discounts are numbers),
    [pick_best_coupon] returns the pair that is first in the order
    "higher discount, then earlier endDate, then smaller code": it comes
    strictly before every pair standing earlier in the list and before or
    level with every pair standing later.  With equal discounts 15.0 and
    endDates 2025-01-01 and 2025-02-01 the coupon of 2025-01-01 is
    returned whatever the codes ("B10" against "A10" included); with equal
    discount and endDate, "ALPHA" is returned against "BETA". *)
Theorem pick_best_coupon_first :
  (forall l : list (Coupon * float),
     l <> [] ->
     Forall (fun cd => is_nan (snd cd) = false) l ->
     exists b l1 l2,
       Logic.pick_best_coupon l = Some b
       /\ l = l1 ++ b :: l2
       /\ (forall x, In x l1 -> strictly_before b x)
       /\ (forall x, In x l2 -> before_or_level b x))
  /\ (forall c1 c2 : Coupon,
        endDate c1 = mkdate 2025 1 1 ->
        endDate c2 = mkdate 2025 2 1 ->
        Logic.pick_best_coupon [(c1, float_of_Z 15); (c2, float_of_Z 15)]
        = Some (c1, float_of_Z 15)
        /\ Logic.pick_best_coupon [(c2, float_of_Z 15); (c1, float_of_Z 15)]
           = Some (c1, float_of_Z 15))
  /\ (forall (c1 c2 : Coupon) (d : float),
        is_nan d = false ->
        endDate c1 = endDate c2 ->
        code c1 = lit "ALPHA" ->
        code c2 = lit "BETA" ->
        Logic.pick_best_coupon [(c1, d); (c2, d)] = Some (c1, d)
        /\ Logic.pick_best_coupon [(c2, d); (c1, d)] = Some (c1, d)).
Proof.
  split; [|split].
  - intros l Hne Hnan.
    assert (Hok : Forall (fun x => key_ok (Logic.sort_key x)) l).
    { revert Hnan. apply List.Forall_impl. intros cd. apply sort_key_ok. }
    destruct (sort_head Logic.sort_key l Hne Hok) as (b & l1 & l2 & Hh & Hl & H1 & H2).
    exists b, l1, l2.
    rewrite List.Forall_forall in Hnan.
    assert (Hb : is_nan (snd b) = false).
    { apply Hnan. rewrite Hl. apply in_or_app. right. now left. }
    split; [|split; [assumption|split]].
    + unfold Logic.pick_best_coupon. destruct l; [congruence | exact Hh].
    + intros x Hx. apply strictly_before_cmp; auto.
      apply Hnan. rewrite Hl. apply in_or_app. now left.
    + intros x Hx. apply before_or_level_cmp; auto.
      apply Hnan. rewrite Hl. apply in_or_app. right. now right.
  - intros c1 c2 H1 H2. apply pick_earlier_end; [reflexivity|].
    rewrite H1, H2. reflexivity.
  - intros c1 c2 d Hd He H1 H2. apply pick_smaller_code; auto.
    rewrite H1, H2. reflexivity.
Qed.

End Selection.

(** * The statements at sample data *)

Section Samples.
Import Py Models Storage Reference Examples.

Lemma compute_discount_in_range_witness :
  (fle fzero (Logic.compute_discount save10 (float_of_Z 100)) = true
   /\ fle (Logic.compute_discount save10 (float_of_Z 100)) (float_of_Z 100) = true)
  /\ (fle fzero (Main.compute_discount save10 (float_of_Z 100)) = true
      /\ fle (Main.compute_discount save10 (float_of_Z 100)) (float_of_Z 100) = true).
Proof.
  apply (compute_discount_in_range save10 (float_of_Z 100)). reflexivity.
Defined.

Lemma pick_best_coupon_first_witness :
  exists b l1 l2,
    Logic.pick_best_coupon [(a10, float_of_Z 15); (b10, float_of_Z 15)] = Some b
    /\ [(a10, float_of_Z 15); (b10, float_of_Z 15)] = l1 ++ b :: l2
    /\ (forall x, In x l1 -> strictly_before b x)
    /\ (forall x, In x l2 -> before_or_level b x).
Proof.
  apply (proj1 pick_best_coupon_first
           [(a10, float_of_Z 15); (b10, float_of_Z 15)]).
  - discriminate.
  - repeat constructor.
Defined.

Lemma compute_discount_reference_witness :
  Logic.compute_discount save10 (float_of_Z 5)
  = Reference.discount ascii_upper save10 (float_of_Z 5)
  /\ Logic.compute_discount save10 (float_of_Z 5) = float_of_Z 5.
Proof.
  split.
  - apply (proj1 (proj2 compute_discount_reference) save10 (float_of_Z 5)).
    repeat constructor.
  - apply (proj1 (proj2 (proj2 compute_discount_reference)) save10);
      reflexivity.
Defined.

(** The reference definition with the case fold of a-z gives the
    ligature spelling no discount; the code gives it the flat 10. *)
Lemma compute_discount_reference_counterexample :
  Reference.discount ascii_upper ligature_flat (float_of_Z 100) = fzero
  /\ Logic.compute_discount ligature_flat (float_of_Z 100) = float_of_Z 10
  /\ Logic.compute_discount ligature_flat (float_of_Z 100)
     <> Reference.discount ascii_upper ligature_flat (float_of_Z 100).
Proof.
  split; [reflexivity|]. split; [reflexivity|]. vm_compute. discriminate.
Qed.

Lemma cart_eligibility_ok_iff_witness :
  (Logic.cart_eligibility_ok (with_applicable [lit "electronics"]) grocery_cart
   = Return false
   <-> cart_violation given_nonempty (with_applicable [lit "electronics"])
         (float_of_Z 100) grocery_cart)
  /\ Logic.cart_eligibility_ok (with_applicable [lit "electronics"]) grocery_cart
     = Return false.
Proof.
  split.
  - apply (proj1 cart_eligibility_ok_iff (with_applicable [lit "electronics"])
             grocery_cart (float_of_Z 100)).
    reflexivity.
  - apply (proj2 cart_eligibility_ok_iff (with_applicable [lit "electronics"])
             grocery_cart (float_of_Z 100)).
    + reflexivity.
    + reflexivity.
    + repeat constructor.
Defined.

(** An applicable-category set that is present and empty is disjoint from
    the categories of every cart, and the check answers true; a cart with
    a quantity beyond the range of a float makes the check raise, whatever
    the rules. *)
Lemma cart_eligibility_ok_counterexample :
  (Logic.compute_cart_value grocery_cart = Return (float_of_Z 100)
   /\ cart_violation given (with_applicable []) (float_of_Z 100) grocery_cart
   /\ Logic.cart_eligibility_ok (with_applicable []) grocery_cart = Return true)
  /\ (forall rules, Logic.cart_eligibility_ok rules huge_cart = Raise OverflowError).
Proof.
  split; [split; [reflexivity | split; [|reflexivity]] |].
  - right; right; left. exists []. split; [reflexivity|]. intros x _ [].
  - intros rules. reflexivity.
Qed.

Lemma get_best_coupon_usage_witness :
  (Main.get_best_coupon jun15 request (shop [save10] used_once)
   = (Return {| coupon := None; discountAmount := fzero |},
      shop [save10] used_once))
  /\ (COUPONS_DB (shop [save10] used_once) = COUPONS_DB (shop [save10] ∅)
      /\ default 0 (USAGE_PER_USER (shop [save10] used_once)
                      !! (userId (user request), code save10))
         = default 0 (USAGE_PER_USER (shop [save10] ∅)
                         !! (userId (user request), code save10)) + 1
      /\ forall k',
          k' <> (userId (user request), code save10) ->
          USAGE_PER_USER (shop [save10] used_once) !! k'
          = USAGE_PER_USER (shop [save10] ∅) !! k').
Proof.
  split.
  - apply (proj1 (get_best_coupon_usage jun15 request (shop [save10] used_once))).
    vm_compute. reflexivity.
  - apply (proj1 (proj2 (get_best_coupon_usage jun15 request (shop [save10] ∅)))
             save10 (float_of_Z 10) (shop [save10] used_once)).
    vm_compute. reflexivity.
Defined.

Lemma has_remaining_usage_iff_witness :
  ~ In (save10, float_of_Z 10)
      (match fst (Main.candidate_discounts jun15 request (shop [save10] used_once)) with
       | Return cs => cs
       | Raise _ => []
       end).
Proof.
  apply (proj2 (has_remaining_usage_iff save10 shopper (shop [save10] used_once))
           jun15 request).
  - reflexivity.
  - reflexivity.
  - vm_compute. reflexivity.
  - vm_compute. reflexivity.
Defined.

Lemma unknown_type_zero_witness :
  Logic.compute_discount bogo (float_of_Z 100) = fzero
  /\ Main.compute_discount bogo (float_of_Z 100) = fzero.
Proof.
  destruct (proj1 (unknown_type_zero bogo)) as [H _].
  - vm_compute. discriminate.
  - vm_compute. discriminate.
  - exact (H (float_of_Z 100)).
Defined.

(** The ligature spelling is neither "FLAT" nor "PERCENT" after the case
    fold of a-z, yet the coupon gets the flat 10 and is the candidate of a
    request. *)
Lemma unknown_type_zero_counterexample :
  ascii_upper (discountType ligature_flat) <> lit "FLAT"
  /\ ascii_upper (discountType ligature_flat) <> lit "PERCENT"
  /\ Logic.compute_discount ligature_flat (float_of_Z 100) <> fzero
  /\ fst (Main.candidate_discounts jun15 request (shop [ligature_flat] ∅))
     = Return [(ligature_flat, float_of_Z 10)].
Proof.
  split; [vm_compute; discriminate|].
  split; [vm_compute; discriminate|].
  split; [vm_compute; discriminate|].
  vm_compute. reflexivity.
Qed.

(** On the Basic Latin codes of the samples, [str.upper] is the fold of
    a-z. *)
Lemma create_coupon_spec_witness :
  Main.create_coupon ascii_upper save10 (shop [save10] ∅)
  = (Raise (HTTPException 400 "Coupon code already exists"), shop [save10] ∅)
  /\ exists s',
      Main.create_coupon ascii_upper bogo (shop [save10] ∅)
      = (Return (set_code (ascii_upper (code bogo)) bogo), s')
      /\ code (set_code (ascii_upper (code bogo)) bogo) = ascii_upper (code bogo)
      /\ dict_get (ascii_upper (code bogo)) (COUPONS_DB s')
         = Some (set_code (ascii_upper (code bogo)) bogo)
      /\ (forall k, k <> ascii_upper (code bogo) ->
            dict_get k (COUPONS_DB s') = dict_get k (COUPONS_DB (shop [save10] ∅)))
      /\ dict_values (COUPONS_DB s')
         = dict_values (COUPONS_DB (shop [save10] ∅))
           ++ [set_code (ascii_upper (code bogo)) bogo]
      /\ USAGE_PER_USER s' = USAGE_PER_USER (shop [save10] ∅).
Proof.
  split.
  - apply (proj1 (create_coupon_spec ascii_upper save10 (shop [save10] ∅))).
    reflexivity.
  - apply (proj2 (create_coupon_spec ascii_upper bogo (shop [save10] ∅))).
    reflexivity.
Defined.

Lemma inverted_window_inactive_witness :
  Logic.is_within_date_range jun15 inverted (Some jun15) = false
  /\ fst (Main.candidate_discounts jun15 request (shop [inverted] ∅)) = Return [].
Proof.
  split.
  - apply (proj1 (inverted_window_inactive inverted eq_refl)).
  - vm_compute. reflexivity.
Defined.

End Samples.

(** * Cart aggregates *)

Section Aggregates.
Import Py Models Storage Eligible.

Lemma items_count_fold (l : list CartItem) (n : Z) :
  fold_left (fun total item => total + quantity item) l n
  = n + fold_left (fun total item => total + quantity item) l 0.
Proof.
  revert n. induction l as [|x l IH]; intros n; cbn [fold_left]; [lia|].
  rewrite (IH (n + quantity x)), (IH (0 + quantity x)). lia.
Qed.

(** The item count of a cart made of two runs of items is the sum of the
    counts of the runs, and it is not negative when no quantity is. *)
Theorem compute_items_count_additive (l1 l2 : list CartItem) :
  Logic.compute_items_count {| items := l1 ++ l2 |}
  = Logic.compute_items_count {| items := l1 |}
    + Logic.compute_items_count {| items := l2 |}
  /\ (Forall (fun item => 0 <= quantity item) l1 ->
      0 <= Logic.compute_items_count {| items := l1 |}).
Proof.
  unfold Logic.compute_items_count. cbn [items]. split.
  - rewrite fold_left_app. apply items_count_fold.
  - induction 1 as [|x l Hx _ IH]; cbn [fold_left]; [lia|].
    rewrite items_count_fold. lia.
Qed.

Lemma cart_value_fold_raise (l : list CartItem) (e : exn) :
  fold_left
    (fun acc item =>
       total <- acc ;;
       price <- fmul_int (unitPrice item) (quantity item) ;;
       Return (fadd total price))
    l (Raise e)
  = Raise e.
Proof. induction l as [|x l IH]; cbn; auto. Qed.

Lemma float_of_int_raise (n : Z) (e : exn) :
  float_of_int n = Raise e -> e = OverflowError.
Proof.
  unfold float_of_int. destruct (float_of_Z n); intros [= ]; auto.
Qed.

Lemma cart_value_fold_spec (l : list CartItem) :
  forall acc : float,
    match fold_left
            (fun acc item =>
               total <- acc ;;
               price <- fmul_int (unitPrice item) (quantity item) ;;
               Return (fadd total price))
            l (Return acc) with
    | Return _ =>
        Forall (fun item => exists f, float_of_int (quantity item) = Return f) l
    | Raise e =>
        e = OverflowError
        /\ Exists (fun item => float_of_int (quantity item) = Raise OverflowError) l
    end.
Proof.
  induction l as [|x l IH]; intros acc; cbn; [constructor|].
  unfold fmul_int.
  destruct (float_of_int (quantity x)) as [f|e] eqn:E; cbn.
  - specialize (IH (fadd acc (fmul (unitPrice x) f))).
    destruct (fold_left _ l _) as [v|e'].
    + constructor; eauto.
    + destruct IH as [-> IH]. split; [reflexivity | now right].
  - rewrite cart_value_fold_raise.
    pose proof (float_of_int_raise _ _ E) as ->. split; [reflexivity | now left].
Qed.

(** The cart value fails in one way only: [OverflowError], exactly when
    some quantity is too large an integer to be converted to a float;
    the value of the empty cart is zero. *)
Theorem compute_cart_value_raises (cart : Cart) :
  ((exists e, Logic.compute_cart_value cart = Raise e)
   <-> exists item, In item (items cart)
                    /\ float_of_int (quantity item) = Raise OverflowError)
  /\ (forall e, Logic.compute_cart_value cart = Raise e -> e = OverflowError)
  /\ (items cart = [] -> Logic.compute_cart_value cart = Return fzero).
Proof.
  unfold Logic.compute_cart_value.
  pose proof (cart_value_fold_spec (items cart) fzero) as H.
  split; [|split].
  - destruct (fold_left _ (items cart) _) as [v|e].
    + split; [intros [e [= ]]|].
      intros (item & Hin & Hr). rewrite List.Forall_forall in H.
      destruct (H item Hin) as [f Hf]. congruence.
    + destruct H as [-> H]. split; [|eauto].
      intros _. apply List.Exists_exists in H. exact H.
  - intros e He. rewrite He in H. apply H.
  - intros ->. reflexivity.
Qed.

(** Rounding keeps the sign. *)

Lemma iter_pos_inv {A : Type} (P : A -> Prop) (f : A -> A) :
  (forall x, P x -> P (f x)) -> forall p x, P x -> P (SpecFloat.iter_pos f p x).
Proof.
  intros Hf. induction p as [p IH|p IH|]; intros x Hx; cbn; auto.
Qed.

Lemma shr_1_nonneg (mrs : shr_record) :
  0 <= shr_m mrs -> 0 <= shr_m (shr_1 mrs).
Proof.
  destruct mrs as [m r s]. destruct m as [|[p|p|]|[p|p|]]; cbn; lia.
Qed.

Lemma shr_fexp_nonneg (m e : Z) (l : location) :
  0 <= m -> 0 <= shr_m (fst (shr_fexp prec emax m e l)).
Proof.
  intros Hm. unfold shr_fexp, shr.
  assert (H0 : 0 <= shr_m (shr_record_of_loc m l))
    by (destruct l as [|[]]; exact Hm).
  destruct (fexp prec emax (Zdigits2 m + e) - e); cbn [fst]; auto.
  apply (iter_pos_inv (fun r => 0 <= shr_m r)); auto. apply shr_1_nonneg.
Qed.

Lemma round_nearest_even_nonneg (m : Z) (l : location) :
  0 <= m -> 0 <= round_nearest_even m l.
Proof.
  intros Hm. destruct l as [|[]]; cbn; try destruct (Z.even m); lia.
Qed.

Lemma binary_round_aux_signed (sx : bool) (m e : Z) (l : location) :
  0 <= m -> signed sx (binary_round_aux prec emax sx m e l).
Proof.
  intros Hm. unfold binary_round_aux.
  pose proof (shr_fexp_nonneg m e l Hm) as H1.
  destruct (shr_fexp prec emax m e l) as [mrs' e']. cbn [fst] in H1.
  pose proof (shr_fexp_nonneg _ e' loc_Exact
                (round_nearest_even_nonneg _ (loc_of_shr_record mrs') H1)) as H2.
  destruct (shr_fexp prec emax _ e' loc_Exact) as [mrs'' e'']. cbn [fst] in H2.
  destruct (shr_m mrs'') as [|p|p]; [reflexivity | | lia].
  destruct (e'' <=? emax - prec); reflexivity.
Qed.

Lemma binary_round_signed (sx : bool) (m : positive) (e : Z) :
  signed sx (binary_round prec emax sx m e).
Proof.
  unfold binary_round. destruct (shl_align m e _) as [mz ez].
  now apply binary_round_aux_signed.
Qed.

Lemma signed_nonneg (f : float) : signed false f -> nonneg f.
Proof. destruct f as [s|s| |s m e]; cbn; intros H; subst; easy. Qed.

Lemma finite_nonneg_nonneg (f : float) : finite_nonneg f -> nonneg f.
Proof. destruct f as [s|s| |[] m e]; cbn; easy. Qed.

Lemma float_of_int_nonneg (n : Z) (f : float) :
  0 <= n -> float_of_int n = Return f -> finite_nonneg f.
Proof.
  intros Hn. unfold float_of_int, float_of_Z, binary_normalize.
  destruct n as [|p|p]; [intros [= <-]; exact I | | lia].
  pose proof (binary_round_signed false p 0) as H.
  destruct (binary_round prec emax false p 0) as [s|s| |s m e];
    intros [= <-]; cbn in *; subst; easy.
Qed.

Lemma fmul_nonneg (a b : float) :
  finite_nonneg a -> finite_nonneg b -> nonneg (fmul a b).
Proof.
  destruct a as [sa|sa| |[] ma ea], b as [sb|sb| |[] mb eb]; cbn;
    try easy; intros _ _.
  apply signed_nonneg. unfold fmul, SFmul.
  now apply binary_round_aux_signed.
Qed.

Lemma fadd_nonneg (a b : float) : nonneg a -> nonneg b -> nonneg (fadd a b).
Proof.
  destruct a as [[]|[]| |[] ma ea], b as [[]|[]| |[] mb eb]; cbn;
    try easy; intros _ _.
  apply signed_nonneg. unfold fadd, SFadd, binary_normalize. cbn.
  apply binary_round_signed.
Qed.

(** With prices that are finite and not negative and quantities that are
    not negative, the cart value, when there is one, is a number that is
    not negative: never NaN, never below zero. *)
Theorem compute_cart_value_nonneg (cart : Cart) :
  Forall (fun item => finite_nonneg (unitPrice item) /\ 0 <= quantity item)
    (items cart) ->
  forall v, Logic.compute_cart_value cart = Return v -> nonneg v.
Proof.
  unfold Logic.compute_cart_value.
  assert (H : forall l acc,
             nonneg acc ->
             Forall (fun item => finite_nonneg (unitPrice item) /\ 0 <= quantity item) l ->
             forall v,
               fold_left
                 (fun acc item =>
                    total <- acc ;;
                    price <- fmul_int (unitPrice item) (quantity item) ;;
                    Return (fadd total price))
                 l (Return acc) = Return v ->
               nonneg v).
  { induction l as [|x l IH]; intros acc Hacc Hl v; cbn.
    - now intros [= <-].
    - apply Forall_cons_iff in Hl as [[Hp Hq] Hl]. unfold fmul_int.
      destruct (float_of_int (quantity x)) as [f|e] eqn:E; cbn.
      + apply IH; auto. apply fadd_nonneg; auto.
        apply fmul_nonneg; auto. now apply (float_of_int_nonneg (quantity x)).
      + rewrite cart_value_fold_raise. discriminate. }
  intros Hl. apply H; [reflexivity | exact Hl].
Qed.

Lemma In_remove_dups_str (x : str) (l : list str) :
  In x (remove_dups l) <-> In x l.
Proof. rewrite <- !list_elem_of_In. apply elem_of_remove_dups. Qed.

(** The categories of a cart are the categories its items carry, each
    listed once. *)
Theorem get_cart_categories_set (cart : Cart) :
  (forall c, In c (Logic.get_cart_categories cart)
             <-> exists item, In item (items cart) /\ category item = c)
  /\ List.NoDup (Logic.get_cart_categories cart).
Proof.
  unfold Logic.get_cart_categories. split.
  - intros c. rewrite In_remove_dups_str, in_map_iff.
    split; intros (item & H1 & H2); exists item; auto.
  - apply NoDup_ListNoDup, NoDup_remove_dups.
Qed.

End Aggregates.

(** * The user-side rules, the window and the bounds of a discount *)

Section Rules.
Import Py Models Storage Order Eligible.

(** The user-side check answers true exactly when every constraint that
    is present holds: the tier is in the allowed set (a set without
    members allows every tier), the lifetime spend is not below the
    minimum, the orders placed are not below the minimum, a first-order
    coupon meets a first order, the country is in the allowed set (a set
    without members allows every country). *)
Theorem user_eligibility_ok_iff (elig : Eligibility) (user : UserContext)
    (is_first_order : bool) :
  Logic.user_eligibility_ok elig user is_first_order = true
  <-> (forall l, allowedUserTiers elig = Some l -> l <> [] -> In (userTier user) l)
      /\ (forall m, minLifetimeSpend elig = Some m ->
                    flt (lifetimeSpend user) m = false)
      /\ (forall m, minOrdersPlaced elig = Some m -> m <= ordersPlaced user)
      /\ (firstOrderOnly elig = Some true -> is_first_order = true)
      /\ (forall l, allowedCountries elig = Some l -> l <> [] -> In (country user) l).
Proof.
  unfold Logic.user_eligibility_ok.
  destruct elig as [tiers spend orders first countries mcv app exc mic];
    cbn [allowedUserTiers minLifetimeSpend minOrdersPlaced firstOrderOnly
         allowedCountries].
  split.
  - intros H.
    destruct (truthy tiers && negb (str_in (userTier user) (elements tiers)))
      eqn:E1; [discriminate|].
    destruct (match spend with Some m => flt (lifetimeSpend user) m | None => false end)
      eqn:E2; [discriminate|].
    destruct (match orders with Some m => ordersPlaced user <? m | None => false end)
      eqn:E3; [discriminate|].
    destruct (match first with Some true => true | _ => false end && negb is_first_order)
      eqn:E4; [discriminate|].
    destruct (truthy countries && negb (str_in (country user) (elements countries)))
      eqn:E5; [discriminate|].
    repeat split.
    + intros l -> Hl. destruct l as [|x l]; [congruence|]. cbn [truthy elements andb] in E1.
      apply negb_false_iff in E1. now apply str_in_In.
    + intros m ->. exact E2.
    + intros m ->. apply Z.ltb_ge in E3. exact E3.
    + intros ->. cbn in E4. now apply negb_false_iff in E4.
    + intros l -> Hl. destruct l as [|x l]; [congruence|]. cbn [truthy elements andb] in E5.
      apply negb_false_iff in E5. now apply str_in_In.
  - intros (H1 & H2 & H3 & H4 & H5).
    assert (E1 : truthy tiers && negb (str_in (userTier user) (elements tiers)) = false).
    { destruct tiers as [[|x l]|]; try reflexivity. cbn [truthy elements andb].
      apply negb_false_iff, str_in_In, H1; [reflexivity | discriminate]. }
    assert (E2 : match spend with Some m => flt (lifetimeSpend user) m | None => false end = false).
    { destruct spend; auto. }
    assert (E3 : match orders with Some m => ordersPlaced user <? m | None => false end = false).
    { destruct orders as [m|]; auto. apply Z.ltb_ge. auto. }
    assert (E4 : match first with Some true => true | _ => false end && negb is_first_order = false).
    { destruct first as [[]|]; try reflexivity. cbn. rewrite H4; reflexivity. }
    assert (E5 : truthy countries && negb (str_in (country user) (elements countries)) = false).
    { destruct countries as [[|x l]|]; try reflexivity. cbn [truthy elements andb].
      apply negb_false_iff, str_in_In, H5; [reflexivity | discriminate]. }
    rewrite E1, E2, E3, E4, E5. reflexivity.
Qed.

(** The window of a coupon is an interval of days with both ends
    included: a day between two days of the window is in the window, the
    first and the last day are in it as soon as the first is not after the
    last, and the days before the first and after the last are not. *)
Theorem is_within_date_range_interval (clock : date) (c : Coupon) :
  (forall d1 d2 d3,
     Logic.is_within_date_range clock c (Some d1) = true ->
     Logic.is_within_date_range clock c (Some d3) = true ->
     date_leb d1 d2 = true -> date_leb d2 d3 = true ->
     Logic.is_within_date_range clock c (Some d2) = true)
  /\ (date_leb (startDate c) (endDate c) = true ->
      Logic.is_within_date_range clock c (Some (startDate c)) = true
      /\ Logic.is_within_date_range clock c (Some (endDate c)) = true)
  /\ (forall d,
        date_ltb d (startDate c) = true \/ date_ltb (endDate c) d = true ->
        Logic.is_within_date_range clock c (Some d) = false).
Proof.
  pose proof date_total_preorder as TP.
  unfold Logic.is_within_date_range. split; [|split].
  - intros d1 d2 d3. rewrite !andb_true_iff, !date_leb_cmp.
    intros [H1 _] [_ H3] H12 H23. split.
    + exact (cmp_trans _ _ TP _ _ _ I I I H1 H12).
    + exact (cmp_trans _ _ TP _ _ _ I I I H23 H3).
  - intros H. rewrite !andb_true_iff, !date_leb_cmp.
    rewrite !(tp_refl TP) by exact I. apply date_leb_cmp in H.
    repeat split; auto; discriminate.
  - intros d H. apply not_true_is_false.
    rewrite andb_true_iff, !date_leb_cmp. intros [H1 H2].
    destruct H as [H|H]; apply date_ltb_cmp in H.
    + apply (tp_lt_gt TP) in H; auto.
    + apply (tp_lt_gt TP) in H; auto.
Qed.

Lemma fle_trans (a b c : float) :
  fle a b = true -> fle b c = true -> fle a c = true.
Proof.
  intros H1 H2.
  destruct (fle_not_nan _ _ H1) as [Ha Hb], (fle_not_nan _ _ H2) as [_ Hc].
  apply fle_cmp in H1, H2; auto. apply fle_cmp; auto.
  exact (fcmp_trans a b c Ha Hb Hc H1 H2).
Qed.

Lemma flt_fle (a b : float) : flt a b = true -> fle a b = true.
Proof.
  unfold flt, fle, SFltb, SFleb. destruct (SFcompare a b) as [[]|]; congruence.
Qed.

Lemma flt_not_nan (a b : float) :
  flt a b = true -> is_nan a = false /\ is_nan b = false.
Proof. intros H. apply fle_not_nan. now apply flt_fle. Qed.

Lemma not_flt_fle (a b : float) :
  is_nan a = false -> is_nan b = false -> flt b a = false -> fle a b = true.
Proof.
  intros Ha Hb H. apply fle_cmp; auto.
  apply (tp_ge float_total_preorder); auto.
  intros C. apply flt_cmp in C. congruence.
Qed.

(** [min] answers a number below its second argument as soon as its
    answer and that argument are numbers. *)
Lemma min_le_r (a b : float) :
  is_nan (Py.min a b) = false -> is_nan b = false -> fle (Py.min a b) b = true.
Proof.
  unfold Py.min. destruct (flt b a) eqn:E; intros Hm Hb.
  - now apply fle_refl.
  - now apply not_flt_fle.
Qed.

Lemma min_le_l (a b : float) :
  is_nan (Py.min a b) = false -> is_nan a = false -> fle (Py.min a b) a = true.
Proof.
  unfold Py.min. destruct (flt b a) eqn:E; intros Hm Ha.
  - now apply flt_fle.
  - now apply fle_refl.
Qed.

Lemma min_nan_l (a b : float) : is_nan (Py.min a b) = false -> is_nan a = false.
Proof.
  unfold Py.min. destruct (flt b a) eqn:E; auto.
  intros _. now apply flt_not_nan in E.
Qed.

(** What [max(0.0, m)] is bounded by, whenever the bound is a number that
    is not negative and bounds [m] when [m] is positive. *)
Lemma max_zero_le (m k : float) :
  fle fzero k = true ->
  (fgt m fzero = true -> fle m k = true) ->
  fle (Py.max fzero m) k = true.
Proof.
  intros Hk H. unfold Py.max. destruct (fgt m fzero); auto.
Qed.

(** A discount never exceeds what the coupon is worth: the cap of a
    PERCENT coupon that has one, the value of a FLAT coupon (cap and value
    being numbers that are not negative), whatever the cart value. *)
Theorem compute_discount_bounded (c : Coupon) (v : float) :
  (upper (discountType c) = lit "PERCENT" ->
   forall cap, maxDiscountAmount c = Some cap -> fle fzero cap = true ->
   fle (Logic.compute_discount c v) cap = true)
  /\ (upper (discountType c) = lit "FLAT" ->
      fle fzero (discountValue c) = true ->
      fle (Logic.compute_discount c v) (discountValue c) = true).
Proof.
  unfold Logic.compute_discount. split.
  - intros Ht cap Hcap Hk. rewrite Ht, Hcap.
    change (str_eqb (lit "PERCENT") (lit "FLAT")) with false.
    change (str_eqb (lit "PERCENT") (lit "PERCENT")) with true. cbv iota.
    apply max_zero_le; auto. intros Hpos.
    pose proof (fgt_not_nan _ _ Hpos) as Hm.
    destruct (fle_not_nan _ _ Hk) as [_ Hkn].
    pose proof (min_nan_l _ _ Hm) as Hm1.
    apply (fle_trans _ (Py.min (fmul v (fdiv (discountValue c) (float_of_Z 100))) cap)).
    + now apply min_le_l.
    + now apply min_le_r.
  - intros Ht Hk. rewrite Ht.
    change (str_eqb (lit "FLAT") (lit "FLAT")) with true. cbv iota.
    apply max_zero_le; auto. intros Hpos.
    pose proof (fgt_not_nan _ _ Hpos) as Hm.
    apply min_le_l; auto. now apply fle_not_nan in Hk.
Qed.

End Rules.

(** * Whole requests *)

Section Whole.
Import Py Models Storage Order Filter Eligible.

Lemma cart_eligibility_ok_is_true (elig : Eligibility) (cart : Cart) (cv : float) :
  Logic.compute_cart_value cart = Return cv ->
  Logic.cart_eligibility_ok elig cart
  = Return (is_true (Logic.cart_eligibility_ok elig cart)).
Proof.
  intros Hcv. rewrite cart_eligibility_ok_run, Hcv. cbn [bind is_true].
  now destruct (negb (cart_rule_broken elig cv cart)).
Qed.

Lemma candidates_loop_filter today user cart cv (coupons : list Coupon) :
  Logic.compute_cart_value cart = Return cv ->
  forall (acc : list (Coupon * float)) (s : store),
    Main.candidates_loop today user cart cv (ordersPlaced user =? 0) coupons acc s
    = (Return (acc ++ map (fun c => (c, Main.compute_discount c cv))
                        (List.filter (eligible today user cart cv s) coupons)),
       s).
Proof.
  intros Hcv. induction coupons as [|c coupons IH]; intros acc s.
  - cbn. now rewrite app_nil_r.
  - cbn [Main.candidates_loop List.filter]. cbv zeta. unfold eligible at 1.
    destruct (Logic.is_within_date_range today c (Some today));
      cbn [negb andb]; [|apply IH].
    unfold mbind at 1. rewrite has_remaining_usage_run. fold (usage_count s (userId user) (code c)).
    destruct (match usageLimitPerUser c with
              | Some limit => _
              | None => true
              end); cbn [negb andb]; [|apply IH].
    destruct (Logic.user_eligibility_ok (eligibility c) user (ordersPlaced user =? 0));
      cbn [negb andb]; [|apply IH].
    unfold mbind at 1, lift.
    rewrite (cart_eligibility_ok_is_true _ _ _ Hcv).
    destruct (is_true (Logic.cart_eligibility_ok (eligibility c) cart));
      cbn [negb andb]; [|apply IH].
    destruct (fgt (Main.compute_discount c cv) fzero); [|apply IH].
    rewrite IH. cbn [map]. now rewrite <- app_assoc.
Qed.

Lemma candidate_discounts_run (today : date) (payload : BestCouponRequest)
    (s : store) :
  Main.candidate_discounts today payload s
  = (match Logic.compute_cart_value (cart payload) with
     | Return cv =>
         Return (map (fun c => (c, Main.compute_discount c cv))
                   (List.filter
                      (eligible today (user payload) (cart payload) cv s)
                      (dict_values (COUPONS_DB s))))
     | Raise e => Raise e
     end, s).
Proof.
  unfold Main.candidate_discounts. cbv zeta. unfold mbind at 1, lift.
  destruct (Logic.compute_cart_value (cart payload)) as [cv|e] eqn:Hcv;
    [|reflexivity].
  unfold mbind, read. now rewrite (candidates_loop_filter _ _ _ _ _ Hcv).
Qed.

(** The loop of [get_best_coupon] is a filter: when the cart value can be
    computed the candidate list is, in the order of the catalog, every
    coupon that passes the four checks with a discount above zero, paired
    with that discount; no check raises then, and the store is left as it
    was.  When the cart value cannot be computed its error comes out. *)
Theorem candidate_discounts_filter (today : date) (payload : BestCouponRequest)
    (s : store) :
  Main.candidate_discounts today payload s
  = (match Logic.compute_cart_value (cart payload) with
     | Return cv =>
         Return (map (fun c => (c, Main.compute_discount c cv))
                   (List.filter
                      (eligible today (user payload) (cart payload) cv s)
                      (dict_values (COUPONS_DB s))))
     | Raise e => Raise e
     end, s).
Proof. apply candidate_discounts_run. Qed.

(** The handler, outcome by outcome. *)
Lemma get_best_coupon_run (today : date) (payload : BestCouponRequest)
    (s : store) :
  Main.get_best_coupon today payload s
  = match Logic.compute_cart_value (cart payload) with
    | Raise e => (Raise e, s)
    | Return cv =>
        match Logic.pick_best_coupon
                (map (fun c => (c, Main.compute_discount c cv))
                   (List.filter
                      (eligible today (user payload) (cart payload) cv s)
                      (dict_values (COUPONS_DB s)))) with
        | None => (Return {| coupon := None; discountAmount := fzero |}, s)
        | Some (c, d) =>
            (Return {| coupon := Some c; discountAmount := d |},
             {| COUPONS_DB := COUPONS_DB s;
                USAGE_PER_USER :=
                  <[(userId (user payload), code c) :=
                      usage_count s (userId (user payload)) (code c) + 1]>
                    (USAGE_PER_USER s) |})
        end
    end.
Proof.
  unfold Main.get_best_coupon, mbind. cbv beta.
  rewrite best_run, candidate_discounts_run. cbn [fst].
  destruct (Logic.compute_cart_value (cart payload)) as [cv|e]; [|reflexivity].
  destruct (Logic.pick_best_coupon _) as [[c d]|]; reflexivity.
Qed.

Lemma insert_In {A : Type} (kf : A -> key) (x y : A) (l : list A) :
  In y (insert kf x l) <-> y = x \/ In y l.
Proof.
  induction l as [|z l IH]; cbn.
  - split; [intros [<-|[]]; auto | intros [->|[]]; auto].
  - destruct (key_ltb (kf z) (kf x)); cbn; rewrite ?IH; split; intuition auto.
Qed.

Lemma sort_In {A : Type} (kf : A -> key) (y : A) (l : list A) :
  In y (sort kf l) <-> In y l.
Proof.
  induction l as [|x l IH]; [reflexivity|].
  rewrite sort_cons, insert_In, IH. cbn. split; intuition auto.
Qed.

Lemma pick_best_coupon_In (l : list (Coupon * float)) :
  (Logic.pick_best_coupon l = None <-> l = [])
  /\ (forall b, Logic.pick_best_coupon l = Some b -> In b l).
Proof.
  unfold Logic.pick_best_coupon. destruct l as [|x l].
  - split; [split; reflexivity | intros b [= ]].
  - split.
    + rewrite sort_cons, head_insert. split; discriminate.
    + intros b Hb. apply (sort_In Logic.sort_key).
      destruct (sort Logic.sort_key (x :: l)) as [|h t]; [discriminate|].
      cbn in Hb. injection Hb as <-. now left.
Qed.

(** The selection answers nothing exactly on the empty list, and what it
    answers is one of the pairs it was given, whatever the discounts
    (NaN included). *)
Theorem pick_best_coupon_member (l : list (Coupon * float)) :
  (Logic.pick_best_coupon l = None <-> l = [])
  /\ (forall b, Logic.pick_best_coupon l = Some b -> In b l).
Proof. apply pick_best_coupon_In. Qed.

Lemma positive_discount_bounded (raw cv : float) :
  is_nan cv = false ->
  fgt (Py.max fzero (Py.min raw cv)) fzero = true ->
  fle (Py.max fzero (Py.min raw cv)) cv = true.
Proof.
  intros Hcv. unfold Py.max at 1 2.
  destruct (fgt (Py.min raw cv) fzero) eqn:E; [|discriminate].
  intros _. apply min_le_r; auto. now apply fgt_not_nan in E.
Qed.

Lemma selected_eligible (today : date) (payload : BestCouponRequest)
    (s s' : store) (c : Coupon) (d : float) :
  Main.get_best_coupon today payload s
  = (Return {| coupon := Some c; discountAmount := d |}, s') ->
  exists cv,
    Logic.compute_cart_value (cart payload) = Return cv
    /\ In c (dict_values (COUPONS_DB s))
    /\ eligible today (user payload) (cart payload) cv s c = true
    /\ d = Main.compute_discount c cv
    /\ Logic.pick_best_coupon
         (map (fun c => (c, Main.compute_discount c cv))
            (List.filter (eligible today (user payload) (cart payload) cv s)
               (dict_values (COUPONS_DB s)))) = Some (c, d)
    /\ s' = {| COUPONS_DB := COUPONS_DB s;
               USAGE_PER_USER :=
                 <[(userId (user payload), code c) :=
                     usage_count s (userId (user payload)) (code c) + 1]>
                   (USAGE_PER_USER s) |}.
Proof.
  rewrite get_best_coupon_run.
  destruct (Logic.compute_cart_value (cart payload)) as [cv|e]; [|intros [= ]].
  destruct (Logic.pick_best_coupon _) as [[c0 d0]|] eqn:Hp; [|intros [= ]].
  intros [= -> -> <-]. exists cv.
  pose proof (proj2 (pick_best_coupon_In _) _ Hp) as Hin.
  apply in_map_iff in Hin as (c' & [= -> ->] & Hc').
  apply filter_In in Hc' as [Hc1 Hc2].
  repeat split; auto.
Qed.

(** The coupon a request answers is a coupon of the catalog that is in
    its window today and passes the user-side and the cart-side check;
    the discount answered is the one computed for it on the cart value, is
    above zero and, the cart value being a number, not above it. *)
Theorem get_best_coupon_sound (today : date) (payload : BestCouponRequest)
    (s s' : store) (c : Coupon) (d : float) :
  Main.get_best_coupon today payload s
  = (Return {| coupon := Some c; discountAmount := d |}, s') ->
  exists cv,
    Logic.compute_cart_value (cart payload) = Return cv
    /\ In c (dict_values (COUPONS_DB s))
    /\ Logic.is_within_date_range today c (Some today) = true
    /\ Logic.user_eligibility_ok (eligibility c) (user payload)
         (ordersPlaced (user payload) =? 0) = true
    /\ Logic.cart_eligibility_ok (eligibility c) (cart payload) = Return true
    /\ d = Main.compute_discount c cv
    /\ fgt d fzero = true
    /\ (is_nan cv = false -> fle d cv = true).
Proof.
  intros H. destruct (selected_eligible _ _ _ _ _ _ H) as (cv & Hcv & Hin & He & Hd & _).
  exists cv. unfold eligible in He. rewrite !andb_true_iff in He.
  destruct He as ((((H1 & H2) & H3) & H4) & H5).
  repeat split; auto.
  - rewrite (cart_eligibility_ok_is_true _ _ _ Hcv), H4. reflexivity.
  - now rewrite Hd.
  - intros Hn. rewrite Hd in *. now apply positive_discount_bounded.
Qed.

End Whole.

Section Guarantees.
Import Py Models Storage Order Filter Eligible.

Lemma candidates_not_nan (f : Coupon -> bool) (cv : float) (l : list Coupon) :
  (forall c, f c = true -> fgt (Main.compute_discount c cv) fzero = true) ->
  Forall (fun cd : Coupon * float => is_nan (snd cd) = false)
    (map (fun c => (c, Main.compute_discount c cv)) (List.filter f l)).
Proof.
  intros Hf. apply List.Forall_forall. intros cd Hcd.
  apply in_map_iff in Hcd as (c & <- & Hc). apply filter_In in Hc as [_ Hc].
  cbn. apply (fgt_not_nan _ fzero). auto.
Qed.

Lemma eligible_positive today user cart cv s c :
  eligible today user cart cv s c = true ->
  fgt (Main.compute_discount c cv) fzero = true.
Proof. unfold eligible. rewrite !andb_true_iff. tauto. Qed.

(** No coupon of the catalog that passes the checks on this request has
    a discount strictly above the discount answered. *)
Theorem get_best_coupon_optimal (today : date) (payload : BestCouponRequest)
    (s s' : store) (c : Coupon) (d : float) :
  Main.get_best_coupon today payload s
  = (Return {| coupon := Some c; discountAmount := d |}, s') ->
  forall cv c',
    Logic.compute_cart_value (cart payload) = Return cv ->
    In c' (dict_values (COUPONS_DB s)) ->
    eligible today (user payload) (cart payload) cv s c' = true ->
    flt d (Main.compute_discount c' cv) = false.
Proof.
  intros H cv c' Hcv Hin He.
  destruct (selected_eligible _ _ _ _ _ _ H) as (cv0 & Hcv0 & _ & _ & _ & Hp & _).
  rewrite Hcv in Hcv0. injection Hcv0 as <-.
  set (l := map (fun c => (c, Main.compute_discount c cv))
              (List.filter (eligible today (user payload) (cart payload) cv s)
                 (dict_values (COUPONS_DB s)))) in *.
  assert (Hnan : Forall (fun cd : Coupon * float => is_nan (snd cd) = false) l)
    by (apply candidates_not_nan; intros ?; apply eligible_positive).
  assert (Hx : In (c', Main.compute_discount c' cv) l).
  { apply in_map_iff. exists c'. split; [reflexivity|]. now apply filter_In. }
  assert (Hne : l <> []) by (intros E; rewrite E in Hx; destruct Hx).
  assert (Hok : Forall (fun x => key_ok (Logic.sort_key x)) l).
  { revert Hnan. apply List.Forall_impl. intros cd. apply sort_key_ok. }
  destruct (sort_head Logic.sort_key l Hne Hok) as (b & l1 & l2 & Hh & Hl & H1 & H2).
  assert (Hb : b = (c, d)).
  { unfold Logic.pick_best_coupon in Hp. destruct l; [congruence|]. congruence. }
  subst b.
  assert (Hle : key_cmp (Logic.sort_key (c, d))
                  (Logic.sort_key (c', Main.compute_discount c' cv)) <> Gt).
  { rewrite Hl in Hx. apply in_app_or in Hx as [Hx|[Hx|Hx]].
    - rewrite (H1 _ Hx). discriminate.
    - rewrite <- Hx. rewrite (tp_refl key_total_preorder); [discriminate|].
      rewrite List.Forall_forall in Hok. apply Hok. rewrite Hl.
      apply in_or_app. right. now left.
    - auto. }
  rewrite key_cmp_sort_key in Hle. cbn [fst snd] in Hle.
  rewrite List.Forall_forall in Hnan.
  assert (Hd : is_nan d = false).
  { apply (Hnan (c, d)). rewrite Hl. apply in_or_app. right. now left. }
  assert (Hd' : is_nan (Main.compute_discount c' cv) = false).
  { apply (fgt_not_nan _ fzero). now apply eligible_positive in He. }
  apply not_true_is_false. rewrite flt_cmp.
  rewrite (fcmp_opp (Main.compute_discount c' cv) d) by assumption.
  destruct (fcmp (Main.compute_discount c' cv) d); cbn in *; congruence.
Qed.

(** A request whose cart value can be computed answers "no coupon"
    exactly when no coupon of the catalog passes the checks with a
    discount above zero, and then the store is left as it was. *)
Theorem get_best_coupon_none_iff (today : date) (payload : BestCouponRequest)
    (s : store) (cv : float) :
  Logic.compute_cart_value (cart payload) = Return cv ->
  (fst (Main.get_best_coupon today payload s)
   = Return {| coupon := None; discountAmount := fzero |}
   <-> forall c, In c (dict_values (COUPONS_DB s)) ->
                 eligible today (user payload) (cart payload) cv s c = false)
  /\ (fst (Main.get_best_coupon today payload s)
      = Return {| coupon := None; discountAmount := fzero |} ->
      snd (Main.get_best_coupon today payload s) = s).
Proof.
  intros Hcv. rewrite get_best_coupon_run, Hcv.
  set (f := eligible today (user payload) (cart payload) cv s).
  destruct (Logic.pick_best_coupon _) as [[c d]|] eqn:Hp; cbn [fst snd].
  - split; [|intros [= ]]. split; [intros [= ]|]. intros Hall. exfalso.
    apply pick_best_coupon_In in Hp.
    apply in_map_iff in Hp as (c' & _ & Hc'). apply filter_In in Hc' as [H1 H2].
    rewrite (Hall c' H1) in H2. discriminate.
  - split; [|reflexivity]. split; [|reflexivity]. intros _ c Hc.
    apply pick_best_coupon_In in Hp.
    apply map_eq_nil in Hp.
    destruct (f c) eqn:E; [|reflexivity].
    assert (In c (List.filter f (dict_values (COUPONS_DB s))))
      by (apply filter_In; auto).
    rewrite Hp in H. destruct H.
Qed.

Lemma selected_below_limit (today : date)
    (payload : BestCouponRequest) (s s' : store) (c : Coupon) (d : float)
    (limit : Z) :
  Main.get_best_coupon today payload s
  = (Return {| coupon := Some c; discountAmount := d |}, s') ->
  usageLimitPerUser c = Some limit ->
  usage_count s (userId (user payload)) (code c) < limit
  /\ usage_count s' (userId (user payload)) (code c)
     = usage_count s (userId (user payload)) (code c) + 1
  /\ usage_count s' (userId (user payload)) (code c) <= limit.
Proof.
  intros H Hlim.
  destruct (selected_eligible _ _ _ _ _ _ H) as (cv & _ & _ & He & _ & _ & ->).
  unfold eligible in He. rewrite !andb_true_iff, Hlim in He.
  destruct He as ((((_ & H2) & _) & _) & _). apply Z.ltb_lt in H2.
  assert (E : usage_count
                {| COUPONS_DB := COUPONS_DB s;
                   USAGE_PER_USER :=
                     <[(userId (user payload), code c) :=
                         usage_count s (userId (user payload)) (code c) + 1]>
                       (USAGE_PER_USER s) |}
                (userId (user payload)) (code c)
              = usage_count s (userId (user payload)) (code c) + 1).
  { unfold usage_count at 1. cbn [USAGE_PER_USER]. now rewrite lookup_insert_eq. }
  rewrite E. repeat split; lia.
Qed.

(** A coupon with a per-user limit is answered only to a user whose
    recorded count is below the limit, so that the count never goes above
    the limit through a request. *)
Theorem get_best_coupon_respects_limit (today : date)
    (payload : BestCouponRequest) (s s' : store) (c : Coupon) (d : float)
    (limit : Z) :
  Main.get_best_coupon today payload s
  = (Return {| coupon := Some c; discountAmount := d |}, s') ->
  usageLimitPerUser c = Some limit ->
  usage_count s (userId (user payload)) (code c) < limit
  /\ usage_count s' (userId (user payload)) (code c)
     = usage_count s (userId (user payload)) (code c) + 1
  /\ usage_count s' (userId (user payload)) (code c) <= limit.
Proof. apply selected_below_limit. Qed.

(** Once a request has brought a user's count for a coupon up to its
    limit, the next request of that user is not answered that coupon. *)
Theorem limit_reached_not_answered_again (today1 today2 : date)
    (p1 p2 : BestCouponRequest) (s s1 s2 : store) (c : Coupon) (d1 d2 : float)
    (limit : Z) :
  Main.get_best_coupon today1 p1 s
  = (Return {| coupon := Some c; discountAmount := d1 |}, s1) ->
  usageLimitPerUser c = Some limit ->
  limit <= usage_count s (userId (user p1)) (code c) + 1 ->
  userId (user p2) = userId (user p1) ->
  Main.get_best_coupon today2 p2 s1
  <> (Return {| coupon := Some c; discountAmount := d2 |}, s2).
Proof.
  intros H1 Hlim Hfull Hsame H2.
  destruct (selected_below_limit _ _ _ _ _ _ _ H1 Hlim) as (_ & E & _).
  destruct (selected_below_limit _ _ _ _ _ _ _ H2 Hlim) as (L & _).
  rewrite Hsame in L. lia.
Qed.

Lemma no_discount_on_worthless_cart (raw cv : float) :
  fle cv fzero = true -> fgt (Py.max fzero (Py.min raw cv)) fzero = false.
Proof.
  intros Hcv. unfold Py.max.
  destruct (fgt (Py.min raw cv) fzero) eqn:E; [|reflexivity].
  exfalso. pose proof (fgt_not_nan _ _ E) as Hm.
  destruct (fle_not_nan _ _ Hcv) as [Hn _].
  pose proof (fle_trans _ _ _ (min_le_r raw cv Hm Hn) Hcv) as Hle.
  apply fle_cmp in Hle; auto. apply fgt_cmp in E. congruence.
Qed.

(** A cart whose value is zero or below, the empty cart among them, is
    answered "no coupon" whatever the catalog holds, and no usage is
    recorded. *)
Theorem worthless_cart_no_coupon (today : date) (payload : BestCouponRequest)
    (s : store) :
  (forall cv,
     Logic.compute_cart_value (cart payload) = Return cv ->
     fle cv fzero = true ->
     Main.get_best_coupon today payload s
     = (Return {| coupon := None; discountAmount := fzero |}, s))
  /\ (items (cart payload) = [] ->
      Main.get_best_coupon today payload s
      = (Return {| coupon := None; discountAmount := fzero |}, s)).
Proof.
  assert (H : forall cv,
     Logic.compute_cart_value (cart payload) = Return cv ->
     fle cv fzero = true ->
     Main.get_best_coupon today payload s
     = (Return {| coupon := None; discountAmount := fzero |}, s)).
  { intros cv Hcv Hle. rewrite get_best_coupon_run, Hcv.
    assert (E : List.filter (eligible today (user payload) (cart payload) cv s)
                  (dict_values (COUPONS_DB s)) = []).
    { induction (dict_values (COUPONS_DB s)) as [|c l IH]; [reflexivity|].
      cbn [List.filter]. unfold eligible at 1. unfold Main.compute_discount.
      rewrite no_discount_on_worthless_cart by assumption.
      now rewrite andb_false_r. }
    rewrite E. reflexivity. }
  split; [exact H|].
  intros Hempty. apply (H fzero); [|reflexivity].
  unfold Logic.compute_cart_value. now rewrite Hempty.
Qed.

End Guarantees.

(** * The catalog as requests build it *)

Section Built.
Import Py Models Storage Order Filter Eligible.

Lemma dict_contains_In {V : Type} (k : str) (d : dict V) :
  dict_contains k d = true <-> In k (map fst d).
Proof.
  unfold dict_contains. induction d as [|[k' v] d IH]; cbn.
  - split; [discriminate | intros []].
  - destruct (str_eqb k k') eqn:E.
    + apply str_eqb_eq in E. subst. split; auto.
    + apply str_eqb_neq in E. rewrite IH. split; [auto|].
      intros [H|H]; [congruence | assumption].
Qed.

Lemma create_coupon_run (str_upper : str -> str) (c : Coupon) (s : store) :
  Main.create_coupon str_upper c s
  = if dict_contains (str_upper (code c)) (COUPONS_DB s)
    then (Raise (HTTPException 400 "Coupon code already exists"), s)
    else (Return (set_code (str_upper (code c)) c),
          {| COUPONS_DB := COUPONS_DB s ++ [(str_upper (code c), set_code (str_upper (code c)) c)];
             USAGE_PER_USER := USAGE_PER_USER s |}).
Proof.
  unfold Main.create_coupon, mbind, read, write, raise, ret. cbv beta zeta.
  destruct (dict_contains (str_upper (code c)) (COUPONS_DB s)) eqn:E; [reflexivity|].
  cbn [COUPONS_DB USAGE_PER_USER]. now rewrite dict_set_fresh.
Qed.

Lemma create_coupon_catalog_ok (str_upper : str -> str) (c : Coupon)
    (s : store) :
  catalog_ok (COUPONS_DB s) ->
  catalog_ok (COUPONS_DB (snd (Main.create_coupon str_upper c s)))
  /\ USAGE_PER_USER (snd (Main.create_coupon str_upper c s)) = USAGE_PER_USER s.
Proof.
  intros [Hnd Hkeys]. rewrite create_coupon_run.
  destruct (dict_contains (str_upper (code c)) (COUPONS_DB s)) eqn:E; cbn [snd].
  - repeat split; assumption.
  - cbn [COUPONS_DB USAGE_PER_USER]. split; [|reflexivity]. split.
    + rewrite map_app. cbn [map fst]. apply NoDup_app. repeat split.
      * exact Hnd.
      * intros k Hk Hk'. apply list_elem_of_In in Hk, Hk'.
        destruct Hk' as [<-|[]]. apply dict_contains_In in Hk. congruence.
      * apply NoDup_singleton.
    + apply Forall_app. split; [assumption|]. now constructor.
Qed.

(** Creating a coupon keeps the catalog well formed: every coupon stored
    under its own code, no code stored twice; and it never touches the
    usage counters. *)
Theorem create_coupon_keeps_catalog (str_upper : str -> str) (c : Coupon)
    (s : store) :
  catalog_ok (COUPONS_DB s) ->
  catalog_ok (COUPONS_DB (snd (Main.create_coupon str_upper c s)))
  /\ USAGE_PER_USER (snd (Main.create_coupon str_upper c s)) = USAGE_PER_USER s.
Proof. apply create_coupon_catalog_ok. Qed.

(** After a coupon has been created, a request to create a coupon whose
    code upper-cases to the same text is rejected with status 400 and
    changes nothing. *)
Theorem create_coupon_twice (str_upper : str -> str) (c c' : Coupon)
    (s s1 : store) (stored : Coupon) :
  Main.create_coupon str_upper c s = (Return stored, s1) ->
  str_upper (code c') = str_upper (code c) ->
  Main.create_coupon str_upper c' s1
  = (Raise (HTTPException 400 "Coupon code already exists"), s1).
Proof.
  rewrite create_coupon_run.
  destruct (dict_contains (str_upper (code c)) (COUPONS_DB s)); [intros [= ]|].
  intros [= _ <-] Hsame. rewrite create_coupon_run.
  cbn [COUPONS_DB]. rewrite Hsame.
  assert (E : dict_contains (str_upper (code c))
                (COUPONS_DB s ++ [(str_upper (code c), set_code (str_upper (code c)) c)])
              = true).
  { apply dict_contains_In. rewrite map_app. apply in_or_app. right. now left. }
  now rewrite E.
Qed.

Lemma create_all_spec (str_upper : str -> str) (coupons : list Coupon) :
  forall s,
    catalog_ok (COUPONS_DB s) ->
    catalog_ok (COUPONS_DB (create_all str_upper coupons s))
    /\ USAGE_PER_USER (create_all str_upper coupons s) = USAGE_PER_USER s
    /\ forall k, In k (map fst (COUPONS_DB (create_all str_upper coupons s))) ->
                 In k (map fst (COUPONS_DB s))
                 \/ exists c, In c coupons /\ k = str_upper (code c).
Proof.
  induction coupons as [|c coupons IH]; intros s Hs; cbn [create_all].
  - split; [assumption | split; [reflexivity | auto]].
  - destruct (create_coupon_catalog_ok str_upper c s Hs) as [H1 H2].
    destruct (IH _ H1) as (K1 & K2 & K3).
    split; [assumption|]. split; [congruence|].
    intros k Hk. destruct (K3 k Hk) as [Hin|(c' & Hc' & ->)].
    + revert Hin. rewrite create_coupon_run.
      destruct (dict_contains (str_upper (code c)) (COUPONS_DB s)); cbn [snd COUPONS_DB];
        [auto|].
      rewrite map_app. intros Hin. apply in_app_or in Hin as [Hin|[<-|[]]]; [auto|].
      right. exists c. split; [now left | reflexivity].
    + right. exists c'. split; [now right | reflexivity].
Qed.

Lemma catalog_codes (d : dict Coupon) :
  catalog_ok d -> map code (dict_values d) = map fst d.
Proof.
  intros [_ H]. unfold dict_values. rewrite map_map.
  induction H as [|kc d Hk _ IH]; cbn; [reflexivity|]. now rewrite Hk, IH.
Qed.

(** Whatever create-coupon requests an empty store has served, the
    coupons it lists carry pairwise distinct codes, each one the
    upper-cased code of a request, and no usage has been recorded. *)
Theorem created_catalog_codes (str_upper : str -> str)
    (coupons : list Coupon) :
  exists listed,
    Main.list_coupons (create_all str_upper coupons empty_store)
    = (Return listed, create_all str_upper coupons empty_store)
    /\ List.NoDup (map code listed)
    /\ (forall k, In k (map code listed) ->
                  exists c, In c coupons /\ k = str_upper (code c))
    /\ USAGE_PER_USER (create_all str_upper coupons empty_store) = ∅.
Proof.
  assert (H0 : catalog_ok (COUPONS_DB empty_store)).
  { split; [apply NoDup_nil_2 | constructor]. }
  destruct (create_all_spec str_upper coupons empty_store H0) as (K1 & K2 & K3).
  eexists. split; [reflexivity|].
  rewrite (catalog_codes _ K1). repeat split.
  - apply NoDup_ListNoDup. apply K1.
  - intros k Hk. destruct (K3 k Hk) as [[]|H]. exact H.
  - exact K2.
Qed.

End Built.

Section CatalogOrder.
Import Py Models Storage Order Filter Eligible.

Lemma filter_Permutation_bool {A : Type} (f : A -> bool) (l l' : list A) :
  Permutation l l' -> Permutation (List.filter f l) (List.filter f l').
Proof.
  induction 1 as [|x l l' _ IH|x y l|l l' l'' _ IH1 _ IH2]; cbn.
  - constructor.
  - destruct (f x); [now constructor | assumption].
  - destruct (f x), (f y); try reflexivity. apply perm_swap.
  - now transitivity (List.filter f l').
Qed.

Lemma NoDup_map_same {A B : Type} (f : A -> B) (l : list A) (x y : A) :
  List.NoDup (map f l) -> In x l -> In y l -> f x = f y -> x = y.
Proof.
  induction l as [|z l IH]; cbn; [intros _ []|].
  intros Hnd Hx Hy E. apply List.NoDup_cons_iff in Hnd as [Hz Hnd].
  destruct Hx as [->|Hx], Hy as [->|Hy]; auto.
  - exfalso. apply Hz. rewrite E. now apply in_map.
  - exfalso. apply Hz. rewrite <- E. now apply in_map.
Qed.

Lemma eligible_same_usage today user cart cv (s1 s2 : store) (c : Coupon) :
  USAGE_PER_USER s1 = USAGE_PER_USER s2 ->
  eligible today user cart cv s1 c = eligible today user cart cv s2 c.
Proof. intros H. unfold eligible, usage_count. now rewrite H. Qed.

(** The answer to a request does not depend on the order in which the
    coupons were put in the catalog, the catalog being well formed (every
    coupon under its own code, no code twice). *)
Theorem catalog_order_irrelevant (today : date) (payload : BestCouponRequest)
    (s1 s2 : store) :
  Permutation (COUPONS_DB s1) (COUPONS_DB s2) ->
  USAGE_PER_USER s1 = USAGE_PER_USER s2 ->
  catalog_ok (COUPONS_DB s1) ->
  fst (Main.get_best_coupon today payload s2)
  = fst (Main.get_best_coupon today payload s1).
Proof.
  intros Hp Hu Hok. rewrite !get_best_coupon_run.
  destruct (Logic.compute_cart_value (cart payload)) as [cv|e]; [|reflexivity].
  set (f1 := eligible today (user payload) (cart payload) cv s1).
  set (f2 := eligible today (user payload) (cart payload) cv s2).
  assert (Hf : List.filter f2 (dict_values (COUPONS_DB s2))
               = List.filter f1 (dict_values (COUPONS_DB s2))).
  { apply filter_ext. intros c. symmetry. now apply eligible_same_usage. }
  rewrite Hf.
  set (g := fun c => (c, Main.compute_discount c cv)).
  assert (Hperm : Permutation (map g (List.filter f1 (dict_values (COUPONS_DB s1))))
                    (map g (List.filter f1 (dict_values (COUPONS_DB s2))))).
  { apply Permutation_map, filter_Permutation_bool.
    unfold dict_values. now apply Permutation_map. }
  assert (Hnan : Forall (fun cd : Coupon * float => is_nan (snd cd) = false)
                   (map g (List.filter f1 (dict_values (COUPONS_DB s1)))))
    by (apply candidates_not_nan; intros ?; apply eligible_positive).
  assert (Hcodes : forall x y,
            In x (map g (List.filter f1 (dict_values (COUPONS_DB s1)))) ->
            In y (map g (List.filter f1 (dict_values (COUPONS_DB s1)))) ->
            code (fst x) = code (fst y) -> x = y).
  { intros x y Hx Hy E.
    apply in_map_iff in Hx as (c & <- & Hc), Hy as (c' & <- & Hc').
    apply filter_In in Hc as [Hc _], Hc' as [Hc' _]. cbn in E.
    assert (Hnd : List.NoDup (map code (dict_values (COUPONS_DB s1)))).
    { rewrite (catalog_codes _ Hok). apply NoDup_ListNoDup, Hok. }
    now rewrite (NoDup_map_same code _ c c' Hnd Hc Hc' E). }
  rewrite (pick_best_coupon_permutation _ _ Hperm Hnan Hcodes).
  destruct (Logic.pick_best_coupon _) as [[c d]|]; reflexivity.
Qed.

End CatalogOrder.

(** * The further statements at sample data *)

Section MoreSamples.
Import Py Models Storage Reference Examples Eligible MoreExamples.

Lemma compute_items_count_additive_witness :
  0 <= Logic.compute_items_count {| items := [grocery 2; grocery 3] |}.
Proof.
  apply (proj2 (compute_items_count_additive [grocery 2; grocery 3] [])).
  repeat constructor; vm_compute; discriminate.
Defined.

Lemma compute_cart_value_raises_witness :
  Logic.compute_cart_value empty_cart = Return fzero
  /\ exists e, Logic.compute_cart_value huge_cart = Raise e.
Proof.
  split.
  - apply (proj2 (proj2 (compute_cart_value_raises empty_cart))). reflexivity.
  - apply (proj2 (proj1 (compute_cart_value_raises huge_cart))).
    exists (grocery (2 ^ 1024)). split; [now left | reflexivity].
Defined.

Lemma compute_cart_value_nonneg_witness : nonneg (float_of_Z 100).
Proof.
  apply (compute_cart_value_nonneg grocery_cart).
  - repeat constructor. vm_compute. discriminate.
  - reflexivity.
Defined.

Lemma is_within_date_range_interval_witness :
  Logic.is_within_date_range jun15 save10 (Some jun15) = true
  /\ Logic.is_within_date_range jun15 save10 (Some jan1) = true.
Proof.
  split.
  - apply (proj1 (is_within_date_range_interval jun15 save10) jan1 jun15 dec31);
      reflexivity.
  - apply (proj1 (proj2 (is_within_date_range_interval jun15 save10))).
    reflexivity.
Defined.

Lemma compute_discount_bounded_witness :
  fle (Logic.compute_discount percent50 (float_of_Z 100)) (float_of_Z 20) = true
  /\ fle (Logic.compute_discount b10 (float_of_Z 100)) (float_of_Z 15) = true.
Proof.
  split.
  - apply (proj1 (compute_discount_bounded percent50 (float_of_Z 100)));
      reflexivity.
  - apply (proj2 (compute_discount_bounded b10 (float_of_Z 100))); reflexivity.
Defined.

Lemma pick_best_coupon_member_witness :
  In (b10, float_of_Z 15) [(a10, float_of_Z 15); (b10, float_of_Z 15)].
Proof.
  apply (proj2 (pick_best_coupon_member
                  [(a10, float_of_Z 15); (b10, float_of_Z 15)])).
  reflexivity.
Defined.

Lemma get_best_coupon_sound_witness :
  exists cv,
    Logic.compute_cart_value (cart request) = Return cv
    /\ In save10 (dict_values (COUPONS_DB (shop [five; save10] ∅)))
    /\ Logic.is_within_date_range jun15 save10 (Some jun15) = true
    /\ Logic.user_eligibility_ok (eligibility save10) (user request)
         (ordersPlaced (user request) =? 0) = true
    /\ Logic.cart_eligibility_ok (eligibility save10) (cart request) = Return true
    /\ float_of_Z 10 = Main.compute_discount save10 cv
    /\ fgt (float_of_Z 10) fzero = true
    /\ (is_nan cv = false -> fle (float_of_Z 10) cv = true).
Proof.
  apply (get_best_coupon_sound jun15 request (shop [five; save10] ∅)
           (shop [five; save10] used_once)).
  vm_compute. reflexivity.
Defined.

Lemma get_best_coupon_optimal_witness :
  flt (float_of_Z 10) (Main.compute_discount five (float_of_Z 100)) = false.
Proof.
  apply (get_best_coupon_optimal jun15 request (shop [five; save10] ∅)
           (shop [five; save10] used_once) save10 (float_of_Z 10)).
  - vm_compute. reflexivity.
  - reflexivity.
  - cbn. now left.
  - vm_compute. reflexivity.
Defined.

Lemma get_best_coupon_none_iff_witness :
  fst (Main.get_best_coupon jun15 request (shop [save10] used_once))
  = Return {| coupon := None; discountAmount := fzero |}.
Proof.
  apply (proj1 (get_best_coupon_none_iff jun15 request (shop [save10] used_once)
                  (float_of_Z 100) eq_refl)).
  intros c [<-|[]]. vm_compute. reflexivity.
Defined.

Lemma get_best_coupon_respects_limit_witness :
  usage_count (shop [save10] ∅) (userId (user request)) (code save10) < 1
  /\ usage_count (shop [save10] used_once) (userId (user request)) (code save10)
     = usage_count (shop [save10] ∅) (userId (user request)) (code save10) + 1
  /\ usage_count (shop [save10] used_once) (userId (user request)) (code save10) <= 1.
Proof.
  apply (get_best_coupon_respects_limit jun15 request (shop [save10] ∅)
           (shop [save10] used_once) save10 (float_of_Z 10) 1).
  - vm_compute. reflexivity.
  - reflexivity.
Defined.

Lemma limit_reached_not_answered_again_witness :
  Main.get_best_coupon dec31 request (shop [save10] used_once)
  <> (Return {| coupon := Some save10; discountAmount := float_of_Z 10 |},
      shop [save10] used_once).
Proof.
  apply (limit_reached_not_answered_again jun15 dec31 request request
           (shop [save10] ∅) (shop [save10] used_once) (shop [save10] used_once)
           save10 (float_of_Z 10) (float_of_Z 10) 1).
  - vm_compute. reflexivity.
  - reflexivity.
  - vm_compute. discriminate.
  - reflexivity.
Defined.

Lemma worthless_cart_no_coupon_witness :
  Main.get_best_coupon jun15 empty_request (shop [save10] ∅)
  = (Return {| coupon := None; discountAmount := fzero |}, shop [save10] ∅).
Proof.
  apply (proj2 (worthless_cart_no_coupon jun15 empty_request (shop [save10] ∅))).
  reflexivity.
Defined.

Lemma create_coupon_keeps_catalog_witness :
  catalog_ok (COUPONS_DB (snd (Main.create_coupon ascii_upper five (shop [save10] ∅))))
  /\ USAGE_PER_USER (snd (Main.create_coupon ascii_upper five (shop [save10] ∅)))
     = USAGE_PER_USER (shop [save10] ∅).
Proof.
  apply (create_coupon_keeps_catalog ascii_upper five (shop [save10] ∅)).
  split.
  - apply NoDup_singleton.
  - repeat constructor.
Defined.

Lemma create_coupon_twice_witness :
  Main.create_coupon ascii_upper save10 (snd (Main.create_coupon ascii_upper lower_save10 empty_store))
  = (Raise (HTTPException 400 "Coupon code already exists"),
     snd (Main.create_coupon ascii_upper lower_save10 empty_store)).
Proof.
  apply (create_coupon_twice ascii_upper lower_save10 save10 empty_store
           (snd (Main.create_coupon ascii_upper lower_save10 empty_store))
           (set_code (lit "SAVE10") lower_save10)).
  - reflexivity.
  - reflexivity.
Defined.

Lemma catalog_order_irrelevant_witness :
  fst (Main.get_best_coupon jun15 request (shop [save10; five] ∅))
  = fst (Main.get_best_coupon jun15 request (shop [five; save10] ∅)).
Proof.
  apply (catalog_order_irrelevant jun15 request (shop [five; save10] ∅)
           (shop [save10; five] ∅)).
  - apply perm_swap.
  - reflexivity.
  - split.
    + apply NoDup_cons. split; [|apply NoDup_singleton].
      intros H. apply list_elem_of_In in H. destruct H as [H|[]].
      vm_compute in H. discriminate H.
    + repeat constructor.
Defined.

End MoreSamples.
